(** * demo-ecom: the request router of [src/index.js]

    A shallow embedding of the Cloudflare Worker [fetch] handler and of the
    [orders] table of [setup.sql], with the properties of the specification
    stated and proved about it.

    The handler is JavaScript; the embedding keeps its shape:
    - JSON documents are values of type [value]; a property that is absent
      reads as [None] (JavaScript's [undefined]);
    - an exception is the [message] of the thrown error, carried by [Throw];
    - what the runtime decides (the JSON codec, the conversions to a number
      and to a string, the text of the engine's own errors, how a date
      prints, what the order store makes of a value that is not a string) is
      a field of the class [Platform]; theorems hold for every platform;
    - what a request reads from outside (the clock, the random generator,
      which promise of a [Promise.all] is rejected first) is the record
      [Runtime];
    - the [orders] table is the state threaded through [fetch]. *)

From Stdlib Require Import String Ascii List ZArith NArith Bool Lia.
From Stdlib Require Import DecimalString.
From Stdlib Require Import Sorted Permutation.
Import ListNotations.

Local Open Scope string_scope.
Local Open Scope Z_scope.

Set Warnings "-register-all".

(** ** Exceptions *)

(** The outcome of an expression that may throw; [Throw m] carries
    [error.message]. *)
Inductive result (A : Type) : Type :=
| Ok (a : A)
| Throw (message : string).

Arguments Ok {A} a.
Arguments Throw {A} message.

Definition bind {A B : Type} (c : result A) (k : A -> result B) : result B :=
  match c with
  | Ok a => k a
  | Throw m => Throw m
  end.

Notation "x <- c ;; k" := (bind c (fun x => k))
  (at level 61, c at next level, right associativity).

(** [try { c } catch (error) { h error.message }] *)
Definition try_catch {A : Type} (c : result A) (h : string -> result A) : result A :=
  match c with
  | Ok a => Ok a
  | Throw m => h m
  end.

(** The promises [xs.map(f)]: the values of those that are fulfilled and the
    messages of those that are rejected, both in list order. *)
Fixpoint fulfilled {A B : Type} (f : A -> result B) (xs : list A) : list B :=
  match xs with
  | [] => []
  | x :: rest =>
      match f x with
      | Ok y => y :: fulfilled f rest
      | Throw _ => fulfilled f rest
      end
  end.

Fixpoint rejections {A B : Type} (f : A -> result B) (xs : list A) : list string :=
  match xs with
  | [] => []
  | x :: rest =>
      match f x with
      | Ok _ => rejections f rest
      | Throw m => m :: rejections f rest
      end
  end.

(** [Promise.all(xs.map(f))]: every value in list order when no promise is
    rejected; otherwise the rejection of the promise that is rejected first
    in time, which [race] tells, counting among the rejected ones. *)
Definition Promise_all {A B : Type} (race : nat) (f : A -> result B) (xs : list A)
  : result (list B) :=
  match rejections f xs with
  | [] => Ok (fulfilled f xs)
  | m :: ms => Throw (nth (race mod length (m :: ms)) (m :: ms) m)
  end.

(** ** Numbers *)

(** A JavaScript number.  [Finite neg m k] is [(-1)^neg * m / 2^k]: every
    finite double is of this form, and [m = 0] gives the two zeros. *)
Inductive number : Type :=
| NaN
| Infinity (neg : bool)
| Finite (neg : bool) (m : N) (k : N).

Definition num_of_Z (z : Z) : number := Finite (z <? 0) (Z.abs_N z) 0.
Definition num_of_nat (n : nat) : number := Finite false (N.of_nat n) 0.

(** [!!n] *)
Definition num_truthy (n : number) : bool :=
  match n with
  | NaN => false
  | Infinity _ => true
  | Finite _ m _ => negb (m =? 0)%N
  end.

(** [n < 1] *)
Definition num_lt_1 (n : number) : bool :=
  match n with
  | NaN => false
  | Infinity neg => neg
  | Finite neg m k => (m =? 0)%N || neg || (m <? 2 ^ k)%N
  end.

(** [n >= 1] *)
Definition num_ge_1 (n : number) : bool :=
  match n with
  | NaN => false
  | Infinity neg => negb neg
  | Finite neg m k => negb (m =? 0)%N && negb neg && (2 ^ k <=? m)%N
  end.

(** [a === b] on numbers: the zeros are equal, NaN is equal to nothing. *)
Definition num_eqb (a b : number) : bool :=
  match a, b with
  | NaN, _ | _, NaN => false
  | Infinity s, Infinity s' => Bool.eqb s s'
  | Finite s m k, Finite s' m' k' =>
      ((m =? 0)%N && (m' =? 0)%N)
      || (Bool.eqb s s' && (m * 2 ^ k' =? m' * 2 ^ k)%N)
  | _, _ => false
  end.

(** ** JSON values *)

Inductive value : Type :=
| VNull
| VBool (b : bool)
| VNum (n : number)
| VStr (s : string)
| VArr (elements : list value)
| VObj (fields : list (string * value)).

(** [!!v]; [None] is [undefined]. *)
Definition truthy (v : value) : bool :=
  match v with
  | VNull => false
  | VBool b => b
  | VNum n => num_truthy n
  | VStr s => negb (s =? "")%string
  | VArr _ | VObj _ => true
  end.

Definition truthy_opt (v : option value) : bool :=
  match v with
  | Some v => truthy v
  | None => false
  end.

(** [Array.isArray(v)] *)
Definition isArray (v : option value) : bool :=
  match v with
  | Some (VArr _) => true
  | _ => false
  end.

Fixpoint lookup (k : string) (fields : list (string * value)) : option value :=
  match fields with
  | [] => None
  | (k', v) :: rest => if (k' =? k)%string then Some v else lookup k rest
  end.

(** [{...o, k: v}]: a key that is there keeps its place and takes the new
    value, a new key goes last. *)
Fixpoint obj_set (fields : list (string * value)) (k : string) (v : value)
  : list (string * value) :=
  match fields with
  | [] => [(k, v)]
  | (k', v') :: rest =>
      if (k' =? k)%string then (k', v) :: rest else (k', v') :: obj_set rest k v
  end.

(** The own property [k] of a value that is not [null]; the keys read by the
    handler ([name], [phone], [address], [items], [id], [quantity]) are on no
    prototype, so they read as [undefined] off a primitive or an array. *)
Definition field (k : string) (v : value) : option value :=
  match v with
  | VObj fields => lookup k fields
  | _ => None
  end.

(** ** Strings *)

(** [s.startsWith(p)] *)
Definition startsWith (p s : string) : bool := String.prefix p s.

(** [s.includes(needle)] *)
Fixpoint includes (needle s : string) : bool :=
  String.prefix needle s
  || match s with
     | EmptyString => false
     | String _ rest => includes needle rest
     end.

(** [s.split(sep)] for a one-character separator. *)
Fixpoint split (sep : ascii) (s : string) : list string :=
  match s with
  | EmptyString => [""]
  | String c rest =>
      if Ascii.eqb c sep then "" :: split sep rest
      else match split sep rest with
           | [] => [String c ""]
           | seg :: segs => String c seg :: segs
           end
  end.

(** [xs.pop()] of a list of strings ([undefined] does not arise: [split]
    never returns the empty list). *)
Definition pop (xs : list string) : string := last xs "".

(** [s.substr(start, len)] *)
Definition substr (start len : nat) (s : string) : string :=
  String.substring start len s.

(** The decimal digits of an integer, as a template literal prints it. *)
Definition string_of_Z (z : Z) : string := NilZero.string_of_int (Z.to_int z).

(** ** The platform *)

Class Platform : Type := {
  (** [JSON.parse(text)]; it throws a SyntaxError on a text that is not JSON. *)
  JSON_parse : string -> result value;
  (** [JSON.stringify(v)] *)
  JSON_stringify : value -> string;
  (** ToNumber of a string. *)
  StringToNumber : string -> number;
  (** ToNumber of an array or an object (through ToPrimitive, which throws
      when neither [valueOf] nor [toString] gives a primitive). *)
  ObjectToNumber : value -> result number;
  (** [sum + q].  It is total: the handler applies it only to a [q] on
      which [q < 1] did not throw, and [+] converts [q] as [<] did. *)
  js_add : value -> option value -> value;
  (** ToString, as a template literal applies it ([None] is [undefined]); it
      throws on an object that [toString] and [valueOf] give no primitive
      for. *)
  ToString : option value -> result string;
  (** [new Date(ms).toISOString()] for a valid time value. *)
  Date_toISOString : Z -> string;
  (** The engine's message for destructuring [null]. *)
  TypeError_destructure_null : string;
  (** The engine's message for reading property [k] of [null]. *)
  TypeError_read_null : string -> string;
  (** The engine's message for [toISOString] on an invalid date. *)
  RangeError_invalid_time : string;
  (** The store's message for a second row with the same primary key. *)
  D1_unique_violation : string;
  (** The store's message for [NULL] in a [NOT NULL] column. *)
  D1_not_null_violation : string -> string;
  (** [.bind(v)] for a value that is not a string: what the driver sends to
      the store, or the error it throws for a type it does not bind. *)
  D1_bind : value -> result value;
  (** What a [TEXT] column keeps of a value that is not a string, as the
      driver gives it back (a number is kept as the text of a real: 5 as
      [5.0]); [None] when the store takes the value as [NULL]. *)
  D1_column : value -> option value
}.

(** ** The two stores *)

(** A row of [orders] ([setup.sql]), as the driver gives it back: [name],
    [phone] and [address] hold what their [TEXT] column kept of the value
    bound at the insert.  The same record holds the values bound to an
    [INSERT], before the store has converted them. *)
Record row : Type := {
  id : string;
  name : value;
  phone : value;
  address : value;
  items : string;
  created_at : Z
}.

(** The [orders] table: its rows in insertion order. *)
Definition table : Type := list row.

(** The statements the handler prepares, with the values bound to them. *)
Inductive statement : Type :=
| INSERT_INTO_orders (r : row)
| SELECT_FROM_orders_ORDER_BY_created_at_DESC
| SELECT_FROM_orders_WHERE_id (i : string).

(** The binding [env.DB].  [fails q] is the error the store raises on
    statement [q], if it raises one (no table, no connection). *)
Record D1Database : Type := {
  fails : statement -> option string
}.

(** The binding [env.PRODUCTS_KV], read only: [list()] gives the key names,
    [get(key, {type: 'json'})] the document or [null]; both may reject. *)
Record KVNamespace : Type := {
  kv_list : result (list string);
  kv_get : string -> result value
}.

Record Env : Type := {
  PRODUCTS_KV : option KVNamespace;
  DB : option D1Database
}.

(** What a request reads from outside: [Date_now k] is the [k]-th reading
    of the clock, [Math_random_toString_36] the text of
    [Math.random().toString(36)], and [Promise_race] tells which of the
    promises of a [Promise.all] is rejected first. *)
Record Runtime : Type := {
  Date_now : nat -> Z;
  Math_random_toString_36 : string;
  Promise_race : nat
}.

Record Request : Type := {
  method : string;
  pathname : string;
  text : string
}.

(** A response.  [body] is the value handed to [JSON.stringify] ([None] for
    the [null] body of the preflight). *)
Record Response : Type := {
  status : Z;
  headers : list (string * string);
  body : option value
}.

(** *** Computations on the table *)

(** A computation that reads and writes the table and may throw; the table
    it leaves is kept when it throws. *)
Definition M (A : Type) : Type := table -> result A * table.

Definition mret {A : Type} (a : A) : M A := fun t => (Ok a, t).

Definition mbind {A B : Type} (c : M A) (k : A -> M B) : M B :=
  fun t =>
    match c t with
    | (Ok a, t') => k a t'
    | (Throw m, t') => (Throw m, t')
    end.

Definition lift {A : Type} (r : result A) : M A := fun t => (r, t).

Notation "x <~ c ;; k" := (mbind c (fun x => k))
  (at level 61, c at next level, right associativity).

Fixpoint insert_by_created_at_desc (r : row) (sorted : list row) : list row :=
  match sorted with
  | [] => [r]
  | r' :: rest =>
      if created_at r' <=? created_at r then r :: sorted
      else r' :: insert_by_created_at_desc r rest
  end.

(** [ORDER BY created_at DESC]; rows of one [created_at] stay in insertion
    order, as the index of [setup.sql] keeps them: a row goes before the
    rows inserted after it that are not more recent. *)
Fixpoint order_by_created_at_desc (rows : list row) : list row :=
  match rows with
  | [] => []
  | r :: rest => insert_by_created_at_desc r (order_by_created_at_desc rest)
  end.

Section Handler.

Context {P : Platform}.

(** What a [TEXT] column keeps of a bound value: a string as it is, another
    value as the store converts it. *)
Definition column (v : value) : option value :=
  match v with
  | VStr _ => Some v
  | _ => D1_column v
  end.

(** The row the store keeps for the values [r] bound to an [INSERT], or the
    [NOT NULL] column that refuses its value: the first one in column
    order. *)
Definition kept_row (r : row) : string + row :=
  match column (name r) with
  | None => inl "name"
  | Some name_kept =>
      match column (phone r) with
      | None => inl "phone"
      | Some phone_kept =>
          match column (address r) with
          | None => inl "address"
          | Some address_kept =>
              inr {| id := id r; name := name_kept; phone := phone_kept;
                     address := address_kept; items := items r;
                     created_at := created_at r |}
          end
      end
  end.

(** [INSERT INTO orders (...) VALUES (...)].[run()] with the values [r]
    bound: the three [TEXT] columns filled from a request are [NOT NULL],
    and [id] is the primary key.  A statement that raises leaves the table
    as it was. *)
Definition d1_run (db : D1Database) (r : row) : M unit :=
  fun t =>
    match fails db (INSERT_INTO_orders r) with
    | Some m => (Throw m, t)
    | None =>
        match kept_row r with
        | inl col => (Throw (D1_not_null_violation col), t)
        | inr kept =>
            if existsb (fun r' => (id r' =? id kept)%string) t
            then (Throw D1_unique_violation, t)
            else (Ok tt, (t ++ [kept])%list)
        end
    end.

(** [SELECT id, name, phone, address, created_at FROM orders ORDER BY
    created_at DESC].[all()] *)
Definition d1_all (db : D1Database) (t : table) : result (list row) :=
  match fails db SELECT_FROM_orders_ORDER_BY_created_at_DESC with
  | Some m => Throw m
  | None => Ok (order_by_created_at_desc t)
  end.

(** [SELECT * FROM orders WHERE id = ?].[first()] *)
Definition d1_first (db : D1Database) (i : string) (t : table) : result (option row) :=
  match fails db (SELECT_FROM_orders_WHERE_id i) with
  | Some m => Throw m
  | None => Ok (find (fun r => (id r =? i)%string) t)
  end.

(** The object of a row of the five-column select. *)
Definition partial_row (r : row) : list (string * value) :=
  [("id", VStr (id r)); ("name", name r); ("phone", phone r);
   ("address", address r); ("created_at", VNum (num_of_Z (created_at r)))].

(** The object of a row of [SELECT *]. *)
Definition full_row (r : row) : list (string * value) :=
  [("id", VStr (id r)); ("name", name r); ("phone", phone r);
   ("address", address r); ("items", VStr (items r));
   ("created_at", VNum (num_of_Z (created_at r)))].

(** *** Values *)

(** [new Date(ms).toISOString()]: a time value is at most 8.64e15 ms from
    the epoch. *)
Definition toISOString (ms : Z) : result string :=
  if Z.abs ms <=? 8640000000000000 then Ok (Date_toISOString ms)
  else Throw RangeError_invalid_time.

(** ToNumber. *)
Definition ToNumber (v : option value) : result number :=
  match v with
  | None => Ok NaN
  | Some VNull => Ok (Finite false 0 0)
  | Some (VBool b) => Ok (Finite false (if b then 1 else 0) 0)
  | Some (VNum n) => Ok n
  | Some (VStr s) => Ok (StringToNumber s)
  | Some v => ObjectToNumber v
  end.

(** [v < 1] *)
Definition lt_1 (v : option value) : result bool :=
  n <- ToNumber v ;;
  Ok (num_lt_1 n).

(** [item.k]: reading a property of [null] throws. *)
Definition get (item : value) (k : string) : result (option value) :=
  match item with
  | VNull => Throw (TypeError_read_null k)
  | _ => Ok (field k item)
  end.

(** [const { name, phone, address, items } = body] throws on [null]. *)
Definition destructure (body : value) : result unit :=
  match body with
  | VNull => Throw TypeError_destructure_null
  | _ => Ok tt
  end.

Definition elements (v : option value) : list value :=
  match v with
  | Some (VArr l) => l
  | _ => []
  end.

Definition bound (v : option value) : value :=
  match v with
  | Some v => v
  | None => VNull
  end.

(** [.bind(v)]: a string is sent as it is, another value as the driver
    converts it, if it binds it. *)
Definition bind_value (v : value) : result value :=
  match v with
  | VStr _ => Ok v
  | _ => D1_bind v
  end.

(** *** Responses *)

Definition json_headers : list (string * string) :=
  [("Content-Type", "application/json");
   ("Access-Control-Allow-Origin", "*")].

(** [new Response(JSON.stringify(v), { status, headers })] *)
Definition json_response (v : value) (st : Z) : Response :=
  {| status := st; headers := json_headers; body := Some v |}.

Definition error_body (m : string) : value := VObj [("error", VStr m)].

Definition preflight : Response :=
  {| status := 200;
     headers := [("Access-Control-Allow-Origin", "*");
                 ("Access-Control-Allow-Methods", "GET, POST, OPTIONS, DELETE");
                 ("Access-Control-Allow-Headers", "Content-Type")];
     body := None |}.

Definition kv_not_configured : Response :=
  json_response (error_body "Products KV binding not configured") 500.

Definition db_not_configured : Response :=
  json_response (error_body "Database binding not configured") 500.

(** The [catch] of the product and single-order routes. *)
Definition catch_500 (c : result Response) : Response :=
  match c with
  | Ok r => r
  | Throw m => json_response (error_body m) 500
  end.

(** [error.message && error.message.includes('no such table')] *)
Definition no_such_table (m : string) : bool :=
  negb (m =? "")%string && includes "no such table" m.

(** *** GET /products *)

Definition is_null (v : value) : bool :=
  match v with
  | VNull => true
  | _ => false
  end.

Definition get_products (rt : Runtime) (env : Env) : Response :=
  catch_500
    match PRODUCTS_KV env with
    | None => Ok kv_not_configured
    | Some kv =>
        keys <- kv_list kv ;;
        if (length keys =? 0)%nat then Ok (json_response (VArr []) 200)
        else
          products <- Promise_all (Promise_race rt) (kv_get kv) keys ;;
          let validProducts := filter (fun p => negb (is_null p)) products in
          Ok (json_response (VArr validProducts) 200)
    end.

(** *** GET /product/:id *)

(** The lines of the log write constant texts and the id of the path, but
    for line 102, whose template literal converts [product.name] to a
    string inside the [try] block. *)
Definition get_product (env : Env) (req : Request) : Response :=
  let productId := pop (split "/" (pathname req)) in
  catch_500
    match PRODUCTS_KV env with
    | None => Ok kv_not_configured
    | Some kv =>
        product <- kv_get kv productId ;;
        if truthy product then
          (* console.log(`Found product: ${product.name}`) *)
          _ <- ToString (field "name" product) ;;
          Ok (json_response product 200)
        else Ok (json_response (error_body "Product not found") 404)
    end.

(** *** POST /checkout *)

Definition missing_fields : Response :=
  json_response
    (error_body "Missing required fields: name, phone, address, items (array)")
    400.

Definition cart_empty : Response :=
  json_response (error_body "Cart is empty") 400.

(** The message of line 172, byte for byte as the source file has it. *)
Definition invalid_item_message : string :=
  "Each item must have id and valid quantity (â‰¥1)".

Definition invalid_item (item : value) : Response :=
  json_response
    (VObj [("error", VStr invalid_item_message); ("invalidItem", item)])
    400.

(** [!item.id || !item.quantity || item.quantity < 1] *)
Definition item_rejected (item : value) : result bool :=
  i <- get item "id" ;;
  if negb (truthy_opt i) then Ok true
  else
    q <- get item "quantity" ;;
    if negb (truthy_opt q) then Ok true
    else lt_1 q.

(** The loop of lines 169-194: [Some r] when it returns [r] at an item,
    [None] when it runs to the end.  The look-up of the item in the product
    store that follows the check is left out: its result is dropped, what it
    throws is caught and dropped, and it writes nothing but the log. *)
Fixpoint for_item_of (its : list value) : result (option Response) :=
  match its with
  | [] => Ok None
  | item :: rest =>
      rejected <- item_rejected item ;;
      if rejected then Ok (Some (invalid_item item))
      else for_item_of rest
  end.

(** [items.reduce((sum, item) => sum + item.quantity, 0)] *)
Fixpoint reduce_quantities (sum : value) (its : list value) : result value :=
  match its with
  | [] => Ok sum
  | item :: rest =>
      q <- get item "quantity" ;;
      reduce_quantities (js_add sum q) rest
  end.

Definition new_orderId (rt : Runtime) : string :=
  "ord_" ++ string_of_Z (Date_now rt 0) ++ "_"
  ++ substr 2 9 (Math_random_toString_36 rt).

Definition order_placed (orderId : string) (createdAt : Z) (iso : string)
    (customer : value) (itemCount : nat) (totalItems : value) : Response :=
  json_response
    (VObj [("success", VBool true);
           ("orderId", VStr orderId);
           ("message", VStr "Order placed successfully");
           ("timestamp", VNum (num_of_Z createdAt));
           ("created_at", VStr iso);
           ("summary",
            VObj [("customer", customer);
                  ("itemCount", VNum (num_of_nat itemCount));
                  ("totalItems", totalItems)])])
    201.

(** The [try] block of lines 133-241.  [.bind(...)] takes [name], [phone]
    and [address] as the request has them; [orderId] and [itemsJson] are
    strings and [createdAt] is a whole number. *)
Definition checkout_try (rt : Runtime) (env : Env) (req : Request) : M Response :=
  body <~ lift (JSON_parse (text req)) ;;
  _ <~ lift (destructure body) ;;
  let name := field "name" body in
  let phone := field "phone" body in
  let address := field "address" body in
  let items := field "items" body in
  if negb (truthy_opt name) || negb (truthy_opt phone)
     || negb (truthy_opt address) || negb (truthy_opt items)
     || negb (isArray items)
  then mret missing_fields
  else if (length (elements items) =? 0)%nat then mret cart_empty
  else
    returned <~ lift (for_item_of (elements items)) ;;
    match returned with
    | Some r => mret r
    | None =>
        let orderId := new_orderId rt in
        let createdAt := Date_now rt 1 / 1000 in
        let itemsJson := JSON_stringify (bound items) in
        match DB env with
        | None => mret db_not_configured
        | Some db =>
            name_bound <~ lift (bind_value (bound name)) ;;
            phone_bound <~ lift (bind_value (bound phone)) ;;
            address_bound <~ lift (bind_value (bound address)) ;;
            _ <~ d1_run db {| id := orderId; name := name_bound;
                              phone := phone_bound; address := address_bound;
                              items := itemsJson; created_at := createdAt |} ;;
            iso <~ lift (toISOString (createdAt * 1000)) ;;
            totalItems <~ lift (reduce_quantities (VNum (Finite false 0 0))
                                                  (elements items)) ;;
            mret (order_placed orderId createdAt iso (bound name)
                               (length (elements items)) totalItems)
        end
    end.

Definition checkout_catch (m : string) : Response :=
  if no_such_table m
  then json_response
         (VObj [("error",
                 VStr "Orders table not found. Please run the schema.sql file first.");
                ("details", VStr m)])
         500
  else json_response (error_body m) 500.

Definition post_checkout (rt : Runtime) (env : Env) (req : Request)
  : table -> Response * table :=
  fun t =>
    match checkout_try rt env req t with
    | (Ok r, t') => (r, t')
    | (Throw m, t') => (checkout_catch m, t')
    end.

(** *** GET /orders *)

(** The callback of [results.map] (lines 298-321). *)
Definition with_parsed_items (db : D1Database) (t : table) (order : row)
  : result value :=
  try_catch
    (fullOrder <- d1_first db (id order) t ;;
     match fullOrder with
     | Some full =>
         if negb (items full =? "")%string
         then
           parsed <- JSON_parse (items full) ;;
           iso <- toISOString (created_at order * 1000) ;;
           Ok (VObj (obj_set (obj_set (partial_row order) "items" parsed)
                             "created_at" (VStr iso)))
         else Ok (VObj (partial_row order))
     | None => Ok (VObj (partial_row order))
     end)
    (fun parseError =>
       iso <- toISOString (created_at order * 1000) ;;
       Ok (VObj (obj_set
                   (obj_set (obj_set (partial_row order) "items" (VArr []))
                            "created_at" (VStr iso))
                   "parseError" (VStr parseError)))).

Definition orders_try (rt : Runtime) (env : Env) (t : table) : result Response :=
  match DB env with
  | None => Ok db_not_configured
  | Some db =>
      results <- d1_all db t ;;
      ordersWithParsedItems <-
        Promise_all (Promise_race rt) (with_parsed_items db t) results ;;
      Ok (json_response (VArr ordersWithParsedItems) 200)
  end.

Definition orders_catch (m : string) : Response :=
  if no_such_table m
  then json_response
         (VObj [("error",
                 VStr "Orders table not found. No orders have been placed yet.");
                ("details", VStr m)])
         404
  else json_response (error_body m) 500.

Definition get_orders (rt : Runtime) (env : Env) (t : table) : Response :=
  match orders_try rt env t with
  | Ok r => r
  | Throw m => orders_catch m
  end.

(** *** GET /order/:id *)

Definition get_order (env : Env) (req : Request) (t : table) : Response :=
  let orderId := pop (split "/" (pathname req)) in
  catch_500
    match DB env with
    | None => Ok db_not_configured
    | Some db =>
        order <- d1_first db orderId t ;;
        match order with
        | Some o =>
            parsed <- JSON_parse (items o) ;;
            iso <- toISOString (created_at o * 1000) ;;
            Ok (json_response
                  (VObj (obj_set (obj_set (full_row o) "items" parsed)
                                 "created_at" (VStr iso)))
                  200)
        | None => Ok (json_response (error_body "Order not found") 404)
        end
    end.

(** *** GET /health *)

Definition is_some {A : Type} (o : option A) : bool :=
  match o with
  | Some _ => true
  | None => false
  end.

Definition get_health (rt : Runtime) (env : Env) : Response :=
  json_response
    (VObj [("status", VStr "ok");
           ("timestamp", VStr (Date_toISOString (Date_now rt 0)));
           ("services",
            VObj [("kv", VBool (is_some (PRODUCTS_KV env)));
                  ("d1", VBool (is_some (DB env)))])])
    200.

(** *** The default response *)

Definition default_response : Response :=
  json_response
    (VObj [("message", VStr "E-commerce API");
           ("endpoints",
            VArr [VStr "GET  /products - List all products";
                  VStr "GET  /product/:id - Get single product";
                  VStr "POST /checkout - Place an order";
                  VStr "GET  /orders - List all orders (admin)";
                  VStr "GET  /order/:id - Get specific order";
                  VStr "GET  /health - Health check"]);
           ("note", VStr "Products are stored in KV, orders are stored in D1")])
    200.

(** *** The router *)

Definition fetch (rt : Runtime) (env : Env) (req : Request)
  : table -> Response * table :=
  fun t =>
    if (method req =? "OPTIONS")%string then (preflight, t)
    else if (method req =? "GET")%string && (pathname req =? "/products")%string
    then (get_products rt env, t)
    else if (method req =? "GET")%string && startsWith "/product/" (pathname req)
    then (get_product env req, t)
    else if (method req =? "POST")%string && (pathname req =? "/checkout")%string
    then post_checkout rt env req t
    else if (method req =? "GET")%string && (pathname req =? "/orders")%string
    then (get_orders rt env t, t)
    else if (method req =? "GET")%string && startsWith "/order/" (pathname req)
    then (get_order env req t, t)
    else if (method req =? "GET")%string && (pathname req =? "/health")%string
    then (get_health rt env, t)
    else (default_response, t).

End Handler.

(** ** A reference platform

    One platform, written out, on which the handler runs by computation.  It
    follows ECMAScript on the JSON texts and values met in the examples:
    a number literal is rounded to the nearest double (to infinity beyond the
    range), and a number that is not finite prints as [null].  Strings are
    held as UTF-8 bytes.  Finite numbers are printed and added exactly, which
    is what ECMAScript does for integers below 2^53.  The messages of the
    engine and of the store are the ones V8 and D1 give; the message of a
    JSON text that does not parse is a plain one. *)

Module Reference.

Definition dquote : ascii := ascii_of_nat 34.
Definition backslash : ascii := ascii_of_nat 92.

Definition string_of_N (n : N) : string := NilZero.string_of_uint (N.to_uint n).

Definition is_digit (c : ascii) : bool :=
  (48 <=? nat_of_ascii c)%nat && (nat_of_ascii c <=? 57)%nat.

Definition digit_val (c : ascii) : N := N.of_nat (nat_of_ascii c - 48).

(** *** Printing *)

Fixpoint strip_zeros (rev_digits : list ascii) : list ascii :=
  match rev_digits with
  | c :: rest => if Ascii.eqb c "0" then strip_zeros rest else rev_digits
  | [] => []
  end.

(** The [k] decimals of [f / 10^k], without the zeros at the end. *)
Definition decimals (f : N) (k : N) : string :=
  let ds := list_ascii_of_string (string_of_N f) in
  let padded := (repeat "0"%char (N.to_nat k - length ds) ++ ds)%list in
  string_of_list_ascii (rev (strip_zeros (rev padded))).

Definition number_to_string (n : number) : string :=
  match n with
  | NaN => "NaN"
  | Infinity neg => if neg then "-Infinity" else "Infinity"
  | Finite neg m k =>
      if (m =? 0)%N then "0"
      else
        let f := (m mod 2 ^ k)%N in
        (if neg then "-" else "")
        ++ string_of_N (m / 2 ^ k)
        ++ (if (f =? 0)%N then "" else "." ++ decimals (f * 5 ^ k) k)
  end.

Definition hex_digit (n : nat) : ascii :=
  ascii_of_nat (if (n <? 10)%nat then 48 + n else 87 + n).

(** QuoteJSONString, one character at a time. *)
Definition quote_char (c : ascii) : string :=
  let n := nat_of_ascii c in
  if (n =? 8)%nat then "\b"
  else if (n =? 9)%nat then "\t"
  else if (n =? 10)%nat then "\n"
  else if (n =? 12)%nat then "\f"
  else if (n =? 13)%nat then "\r"
  else if (n =? 34)%nat then String backslash (String dquote "")
  else if (n =? 92)%nat then String backslash (String backslash "")
  else if (n <? 32)%nat
       then "\u00" ++ String (hex_digit (n / 16)) (String (hex_digit (n mod 16)) "")
       else String c "".

Fixpoint quote_chars (s : string) : string :=
  match s with
  | EmptyString => ""
  | String c rest => quote_char c ++ quote_chars rest
  end.

Definition quote (s : string) : string :=
  String dquote (quote_chars s ++ String dquote "").

Fixpoint join (sep : string) (xs : list string) : string :=
  match xs with
  | [] => ""
  | [x] => x
  | x :: rest => x ++ sep ++ join sep rest
  end.

Fixpoint stringify (v : value) : string :=
  match v with
  | VNull => "null"
  | VBool b => if b then "true" else "false"
  | VNum (Finite _ _ _ as n) => number_to_string n
  | VNum _ => "null"
  | VStr s => quote s
  | VArr l => "[" ++ join "," (map stringify l) ++ "]"
  | VObj fs =>
      "{" ++ join "," (map (fun kv => quote (fst kv) ++ ":" ++ stringify (snd kv)) fs)
      ++ "}"
  end.

(** *** Reading numbers *)

Fixpoint strip_twos (p : positive) (k : N) : N * N :=
  match p with
  | xO p' => if (k =? 0)%N then (Npos p, k) else strip_twos p' (k - 1)
  | _ => (Npos p, k)
  end.

(** [n * 2^q] as a [number]. *)
Definition dyadic (neg : bool) (n : N) (q : Z) : number :=
  match n with
  | N0 => Finite neg 0 0
  | Npos p =>
      if 0 <=? q then Finite neg (n * 2 ^ Z.to_N q) 0
      else let (m, k) := strip_twos p (Z.to_N (- q)) in Finite neg m k
  end.

(** The double nearest to [a / b] (ties to even), for [a] and [b] positive. *)
Definition nearest_double (neg : bool) (a b : N) : number :=
  let e0 := Z.of_N (N.log2 a) - Z.of_N (N.log2 b) in
  let below :=
    if 0 <=? e0 then (a <? b * 2 ^ Z.to_N e0)%N
    else (a * 2 ^ Z.to_N (- e0) <? b)%N in
  let e := if below then e0 - 1 else e0 in
  let q := Z.max (e - 52) (-1074) in
  let num := if 0 <=? q then a else (a * 2 ^ Z.to_N (- q))%N in
  let den := if 0 <=? q then (b * 2 ^ Z.to_N q)%N else b in
  let n := (num / den)%N in
  let r := (num mod den)%N in
  let n' := if (den <? 2 * r)%N || ((2 * r =? den)%N && N.odd n)
            then (n + 1)%N else n in
  if (971 <? q) || ((q =? 971) && (2 ^ 53 <=? n')%N) then Infinity neg
  else dyadic neg n' q.

(** The number of the literal [m * 10^e]. *)
Definition number_of_decimal (neg : bool) (m : N) (e : Z) : number :=
  if (m =? 0)%N then Finite neg 0 0
  else if 0 <=? e then nearest_double neg (m * 10 ^ Z.to_N e) 1
  else nearest_double neg m (10 ^ Z.to_N (- e)).

(** The digits at the head of [s]: their value after [acc], how many, and
    what follows. *)
Fixpoint read_digits (s : string) (acc : N) (count : nat) : N * nat * string :=
  match s with
  | String c rest =>
      if is_digit c then read_digits rest (10 * acc + digit_val c)%N (S count)
      else (acc, count, s)
  | EmptyString => (acc, count, s)
  end.

Definition read_exponent (s : string) : option (Z * string) :=
  match s with
  | String c rest =>
      if Ascii.eqb c "e" || Ascii.eqb c "E" then
        let (neg, rest') :=
          match rest with
          | String "-" r => (true, r)
          | String "+" r => (false, r)
          | _ => (false, rest)
          end in
        match read_digits rest' 0 0 with
        | (_, O, _) => None
        | (e, _, rest'') => Some (if neg then - Z.of_N e else Z.of_N e, rest'')
        end
      else Some (0, s)
  | EmptyString => Some (0, s)
  end.

(** A JSON number at the head of [s]. *)
Definition read_number (s : string) : option (number * string) :=
  let (neg, s1) :=
    match s with
    | String "-" r => (true, r)
    | _ => (false, s)
    end in
  match s1 with
  | String c _ =>
      if is_digit c then
        let '(i, ni, s2) :=
          match s1 with
          | String "0" r => (0%N, 1%nat, r)
          | _ => read_digits s1 0 0
          end in
        let frac :=
          match s2 with
          | String "." r =>
              match read_digits r i 0 with
              | (_, O, _) => None
              | (m, nf, s3) => Some (m, nf, s3)
              end
          | _ => Some (i, O, s2)
          end in
        match frac with
        | None => None
        | Some (m, nf, s3) =>
            match read_exponent s3 with
            | None => None
            | Some (e, s4) =>
                Some (number_of_decimal neg m (e - Z.of_nat nf), s4)
            end
        end
      else None
  | EmptyString => None
  end.

(** *** Reading JSON *)

Definition is_space (c : ascii) : bool :=
  let n := nat_of_ascii c in
  (n =? 32)%nat || (n =? 9)%nat || (n =? 10)%nat || (n =? 13)%nat.

Fixpoint skip_ws (s : string) : string :=
  match s with
  | String c rest => if is_space c then skip_ws rest else s
  | EmptyString => s
  end.

Definition hex_val (c : ascii) : option nat :=
  let n := nat_of_ascii c in
  if is_digit c then Some (n - 48)%nat
  else if (97 <=? n)%nat && (n <=? 102)%nat then Some (n - 87)%nat
  else if (65 <=? n)%nat && (n <=? 70)%nat then Some (n - 55)%nat
  else None.

(** The UTF-8 bytes of a code unit. *)
Definition utf8 (u : nat) : string :=
  if (u <? 128)%nat then String (ascii_of_nat u) ""
  else if (u <? 2048)%nat
  then String (ascii_of_nat (192 + u / 64))
         (String (ascii_of_nat (128 + u mod 64)) "")
  else String (ascii_of_nat (224 + u / 4096))
         (String (ascii_of_nat (128 + (u / 64) mod 64))
            (String (ascii_of_nat (128 + u mod 64)) "")).

(** The characters of a string literal after its opening quote, and what
    follows the closing quote. *)
Fixpoint read_chars (s : string) : option (string * string) :=
  match s with
  | EmptyString => None
  | String c rest =>
      if Ascii.eqb c dquote then Some ("", rest)
      else if Ascii.eqb c backslash then
        match rest with
        | String e rest' =>
            let simple (c' : nat) :=
              match read_chars rest' with
              | Some (cs, r) => Some (String (ascii_of_nat c') cs, r)
              | None => None
              end in
            if Ascii.eqb e "b" then simple 8%nat
            else if Ascii.eqb e "t" then simple 9%nat
            else if Ascii.eqb e "n" then simple 10%nat
            else if Ascii.eqb e "f" then simple 12%nat
            else if Ascii.eqb e "r" then simple 13%nat
            else if Ascii.eqb e "/" then simple 47%nat
            else if Ascii.eqb e dquote then simple 34%nat
            else if Ascii.eqb e backslash then simple 92%nat
            else if Ascii.eqb e "u" then
              match rest' with
              | String h1 (String h2 (String h3 (String h4 rest''))) =>
                  match hex_val h1, hex_val h2, hex_val h3, hex_val h4 with
                  | Some a, Some b, Some c', Some d =>
                      match read_chars rest'' with
                      | Some (cs, r) =>
                          Some (utf8 (((a * 16 + b) * 16 + c') * 16 + d) ++ cs, r)
                      | None => None
                      end
                  | _, _, _, _ => None
                  end
              | _ => None
              end
            else None
        | EmptyString => None
        end
      else if (nat_of_ascii c <? 32)%nat then None
      else
        match read_chars rest with
        | Some (cs, r) => Some (String c cs, r)
        | None => None
        end
  end.

(** A JSON value at the head of [s]; [fuel] bounds the nesting and the
    number of elements. *)
Fixpoint read_value (fuel : nat) (s : string) : option (value * string) :=
  match fuel with
  | O => None
  | S fuel =>
      match skip_ws s with
      | String "n" (String "u" (String "l" (String "l" r))) => Some (VNull, r)
      | String "t" (String "r" (String "u" (String "e" r))) => Some (VBool true, r)
      | String "f" (String "a" (String "l" (String "s" (String "e" r)))) =>
          Some (VBool false, r)
      | String "[" r =>
          match skip_ws r with
          | String "]" r' => Some (VArr [], r')
          | _ =>
              match read_elements fuel r with
              | Some (l, r') => Some (VArr l, r')
              | None => None
              end
          end
      | String "{" r =>
          match skip_ws r with
          | String "}" r' => Some (VObj [], r')
          | _ =>
              match read_members fuel r [] with
              | Some (fs, r') => Some (VObj fs, r')
              | None => None
              end
          end
      | String c r as s' =>
          if Ascii.eqb c dquote then
            match read_chars r with
            | Some (cs, r') => Some (VStr cs, r')
            | None => None
            end
          else
            match read_number s' with
            | Some (n, r') => Some (VNum n, r')
            | None => None
            end
      | EmptyString => None
      end
  end

with read_elements (fuel : nat) (s : string) : option (list value * string) :=
  match fuel with
  | O => None
  | S fuel =>
      match read_value fuel s with
      | Some (v, r) =>
          match skip_ws r with
          | String "," r' =>
              match read_elements fuel r' with
              | Some (l, r'') => Some (v :: l, r'')
              | None => None
              end
          | String "]" r' => Some ([v], r')
          | _ => None
          end
      | None => None
      end
  end

with read_members (fuel : nat) (s : string) (acc : list (string * value))
  : option (list (string * value) * string) :=
  match fuel with
  | O => None
  | S fuel =>
      match skip_ws s with
      | String c r =>
          if Ascii.eqb c dquote then
            match read_chars r with
            | Some (k, r1) =>
                match skip_ws r1 with
                | String ":" r2 =>
                    match read_value fuel r2 with
                    | Some (v, r3) =>
                        match skip_ws r3 with
                        | String "," r4 => read_members fuel r4 (obj_set acc k v)
                        | String "}" r4 => Some (obj_set acc k v, r4)
                        | _ => None
                        end
                    | None => None
                    end
                | _ => None
                end
            | None => None
            end
          else None
      | EmptyString => None
      end
  end.

Definition parse (s : string) : result value :=
  match read_value (2 * String.length s + 2) s with
  | Some (v, r) =>
      if (skip_ws r =? "")%string then Ok v
      else Throw "Unexpected non-whitespace character after JSON"
  | None =>
      if (skip_ws s =? "")%string then Throw "Unexpected end of JSON input"
      else Throw "Unexpected token in JSON"
  end.

(** *** Conversions *)

Definition trim (s : string) : string :=
  let r := list_ascii_of_string (skip_ws s) in
  string_of_list_ascii
    (rev (list_ascii_of_string (skip_ws (string_of_list_ascii (rev r))))).

(** StrDecimalLiteral: a sign, digits with or without a point, an exponent;
    anything else is NaN (the literals in another base are not read). *)
Definition string_to_number (s : string) : number :=
  let t := trim s in
  if (t =? "")%string then Finite false 0 0
  else
    let (neg, u) :=
      match t with
      | String "-" r => (true, r)
      | String "+" r => (false, r)
      | _ => (false, t)
      end in
    if (u =? "Infinity")%string then Infinity neg
    else
      let '(i, ni, s2) := read_digits u 0 0 in
      let '(m, nf, s3) :=
        match s2 with
        | String "." r => read_digits r i 0
        | _ => (i, O, s2)
        end in
      if (ni + nf =? 0)%nat then NaN
      else
        match read_exponent s3 with
        | Some (e, EmptyString) => number_of_decimal neg m (e - Z.of_nat nf)
        | _ => NaN
        end.

Definition TypeError_to_primitive : string :=
  "Cannot convert object to primitive value".

(** ToString, with ToPrimitive on arrays and objects: an array joins its
    elements, an object prints as [[object Object]] unless a property of its
    own hides [toString]. *)
Fixpoint to_string (v : value) : result string :=
  match v with
  | VNull => Ok "null"
  | VBool b => Ok (if b then "true" else "false")
  | VNum n => Ok (number_to_string n)
  | VStr s => Ok s
  | VArr l =>
      (fix joined (l : list value) : result string :=
         match l with
         | [] => Ok ""
         | x :: rest =>
             s <- match x with
                  | VNull => Ok ""
                  | _ => to_string x
                  end ;;
             match rest with
             | [] => Ok s
             | _ => r <- joined rest ;; Ok (s ++ "," ++ r)
             end
         end) l
  | VObj fs =>
      if is_some (lookup "toString" fs) then Throw TypeError_to_primitive
      else Ok "[object Object]"
  end.

Definition object_to_number (v : value) : result number :=
  s <- to_string v ;;
  Ok (string_to_number s).

(** The sum of two numbers, exact on the finite ones. *)
Definition num_add (a b : number) : number :=
  match a, b with
  | NaN, _ | _, NaN => NaN
  | Infinity s, Infinity s' => if Bool.eqb s s' then a else NaN
  | Infinity _, _ => a
  | _, Infinity _ => b
  | Finite s m k, Finite s' m' k' =>
      let x := (if s then -1 else 1) * Z.of_N (m * 2 ^ k') in
      let y := (if s' then -1 else 1) * Z.of_N (m' * 2 ^ k) in
      if x + y =? 0 then Finite (s && s') 0 0
      else dyadic (x + y <? 0) (Z.abs_N (x + y)) (- Z.of_N (k + k'))
  end.

Definition is_string (v : value) : bool :=
  match v with
  | VStr _ => true
  | _ => false
  end.

Definition primitive (v : value) : value :=
  match v with
  | VArr _ | VObj _ =>
      match to_string v with
      | Ok s => VStr s
      | Throw _ => VStr ""
      end
  | _ => v
  end.

Definition primitive_to_string (v : option value) : string :=
  match v with
  | None => "undefined"
  | Some v => match to_string v with Ok s => s | Throw _ => "" end
  end.

Definition primitive_to_number (v : option value) : number :=
  match v with
  | None => NaN
  | Some VNull => Finite false 0 0
  | Some (VBool b) => Finite false (if b then 1 else 0) 0
  | Some (VNum n) => n
  | Some (VStr s) => string_to_number s
  | Some _ => NaN
  end.

(** [a + b] *)
Definition add (a : value) (b : option value) : value :=
  let pa := primitive a in
  let pb := option_map primitive b in
  if is_string pa || match pb with Some p => is_string p | None => false end
  then VStr (primitive_to_string (Some pa) ++ primitive_to_string pb)
  else VNum (num_add (primitive_to_number (Some pa)) (primitive_to_number pb)).

(** *** Dates *)

Definition pad (width : nat) (n : Z) : string :=
  let ds := string_of_N (Z.to_N n) in
  string_of_list_ascii (repeat "0"%char (width - String.length ds)) ++ ds.

(** The date of a day number (days since 1970-01-01), in the proleptic
    Gregorian calendar: year, month, day. *)
Definition civil_from_days (days : Z) : Z * Z * Z :=
  let z := days + 719468 in
  let era := z / 146097 in
  let doe := z - era * 146097 in
  let yoe := (doe - doe / 1460 + doe / 36524 - doe / 146096) / 365 in
  let doy := doe - (365 * yoe + yoe / 4 - yoe / 100) in
  let mp := (5 * doy + 2) / 153 in
  let d := doy - (153 * mp + 2) / 5 + 1 in
  let m := if mp <? 10 then mp + 3 else mp - 9 in
  let y := yoe + era * 400 + (if m <=? 2 then 1 else 0) in
  (y, m, d).

Definition to_iso_string (ms : Z) : string :=
  let '(y, m, d) := civil_from_days (ms / 86400000) in
  let t := ms mod 86400000 in
  let year :=
    if (0 <=? y) && (y <=? 9999) then pad 4 y
    else (if y <? 0 then "-" else "+") ++ pad 6 (Z.abs y) in
  year ++ "-" ++ pad 2 m ++ "-" ++ pad 2 d ++ "T"
  ++ pad 2 (t / 3600000) ++ ":" ++ pad 2 (t / 60000 mod 60) ++ ":"
  ++ pad 2 (t / 1000 mod 60) ++ "." ++ pad 3 (t mod 1000) ++ "Z".

(** *** The order store *)

Definition is_integer (n : number) : bool :=
  match n with
  | Finite _ m k => (m mod 2 ^ k =? 0)%N
  | _ => false
  end.

(** An element of an array the driver binds as a blob: an integer from 0
    to 255. *)
Definition is_byte (v : value) : bool :=
  match v with
  | VNum (Finite neg m k as n) =>
      is_integer n && ((m =? 0)%N || negb neg) && (m / 2 ^ k <? 256)%N
  | _ => false
  end.

(** [.bind(v)]: a boolean is sent as 1 or 0 and an array of bytes as a
    blob; another array and an object are refused. *)
Definition d1_bind (v : value) : result value :=
  match v with
  | VBool b => Ok (VNum (Finite false (if b then 1 else 0) 0))
  | VArr l =>
      if forallb is_byte l then Ok v
      else
        s <- to_string v ;;
        Throw ("D1_TYPE_ERROR: Type 'object' not supported for value '" ++ s ++ "'")
  | VObj _ =>
      s <- to_string v ;;
      Throw ("D1_TYPE_ERROR: Type 'object' not supported for value '" ++ s ++ "'")
  | _ => Ok v
  end.

(** The text of a real, for the numbers [number_to_string] prints in full:
    a whole number gets one decimal place. *)
Definition real_text (n : number) : string :=
  if is_integer n then number_to_string n ++ ".0" else number_to_string n.

(** A finite number is kept as the text of a real and a blob as it is;
    [null], and a number that is not finite, which reaches the store as
    [null], are [NULL]. *)
Definition d1_column (v : value) : option value :=
  match v with
  | VNum (Finite _ _ _ as n) => Some (VStr (real_text n))
  | VStr _ | VArr _ => Some v
  | _ => None
  end.

#[export] Instance platform : Platform := {
  JSON_parse := parse;
  JSON_stringify := stringify;
  StringToNumber := string_to_number;
  ObjectToNumber := object_to_number;
  js_add := add;
  ToString := fun v => match v with
                       | None => Ok "undefined"
                       | Some v => to_string v
                       end;
  Date_toISOString := to_iso_string;
  TypeError_destructure_null :=
    "Cannot destructure property 'name' of 'body' as it is null.";
  TypeError_read_null :=
    fun k => "Cannot read properties of null (reading '" ++ k ++ "')";
  RangeError_invalid_time := "Invalid time value";
  D1_unique_violation :=
    "D1_ERROR: UNIQUE constraint failed: orders.id: SQLITE_CONSTRAINT";
  D1_not_null_violation :=
    fun col => "D1_ERROR: NOT NULL constraint failed: orders." ++ col
               ++ ": SQLITE_CONSTRAINT";
  D1_bind := d1_bind;
  D1_column := d1_column
}.

End Reference.

(** ** The words of the specification *)

(** Deep equality of JSON values: arrays element by element, objects key by
    key whatever the order of the keys, numbers as [===] has them. *)
Fixpoint deep_equal (a b : value) : bool :=
  match a, b with
  | VNull, VNull => true
  | VBool x, VBool y => Bool.eqb x y
  | VNum x, VNum y => num_eqb x y
  | VStr x, VStr y => (x =? y)%string
  | VArr xs, VArr ys =>
      (fix all2 (xs ys : list value) : bool :=
         match xs, ys with
         | [], [] => true
         | x :: xs', y :: ys' => deep_equal x y && all2 xs' ys'
         | _, _ => false
         end) xs ys
  | VObj fs, VObj gs =>
      (length fs =? length gs)%nat
      && forallb (fun '(k, v) =>
                    match lookup k gs with
                    | Some w => deep_equal v w
                    | None => false
                    end) fs
  | _, _ => false
  end.

Definition is_base36 (c : ascii) : bool :=
  let n := nat_of_ascii c in
  ((48 <=? n)%nat && (n <=? 57)%nat) || ((97 <=? n)%nat && (n <=? 122)%nat).

Fixpoint all_chars (p : ascii -> bool) (s : string) : bool :=
  match s with
  | EmptyString => true
  | String c rest => p c && all_chars p rest
  end.

(** What [x.toString(36)] looks like for [0 <= x < 1]: [0], or [0.] and
    digits in base 36. *)
Definition radix36_fraction (s : string) : bool :=
  match s with
  | String "0" EmptyString => true
  | String "0" (String "." ds) => negb (ds =? "")%string && all_chars is_base36 ds
  | _ => false
  end.

(** A time value, as [Date.now()] returns it. *)
Definition time_value (ms : Z) : Prop := Z.abs ms <= 8640000000000000.

(** The primary key of [setup.sql]. *)
Definition primary_key (t : table) : Prop := NoDup (map id t).


Definition GET (path : string) : Request :=
  {| method := "GET"; pathname := path; text := "" |}.

Definition POST (path body : string) : Request :=
  {| method := "POST"; pathname := path; text := body |}.

Section Specification.

Context {P : Platform}.

(** The table after a sequence of requests, each with its own readings and
    bindings. *)
Fixpoint serve (reqs : list (Runtime * Env * Request)) (t : table) : table :=
  match reqs with
  | [] => t
  | (rt, env, req) :: rest => serve rest (snd (fetch rt env req t))
  end.

(** [orderId] of a response body. *)
Definition orderId_of (r : Response) : option value :=
  match body r with
  | Some o => field "orderId" o
  | None => None
  end.

(** [items] of a response body. *)
Definition items_of (r : Response) : option value :=
  match body r with
  | Some o => field "items" o
  | None => None
  end.

(** The values a checkout whose body parsed to [b] binds to its [INSERT],
    or what the driver throws at the first it does not bind. *)
Definition order_values (rt : Runtime) (b : value) : result row :=
  name_bound <- bind_value (bound (field "name" b)) ;;
  phone_bound <- bind_value (bound (field "phone" b)) ;;
  address_bound <- bind_value (bound (field "address" b)) ;;
  Ok {| id := new_orderId rt;
        name := name_bound;
        phone := phone_bound;
        address := address_bound;
        items := JSON_stringify (bound (field "items" b));
        created_at := Date_now rt 1 / 1000 |}.

(** The row a checkout whose body parsed to [b] inserts, when the driver
    binds its values and the store takes none of them as [NULL]. *)
Definition order_row (rt : Runtime) (b : value) : option row :=
  match order_values rt b with
  | Ok bound_values =>
      match kept_row bound_values with
      | inr r => Some r
      | inl _ => None
      end
  | Throw _ => None
  end.

(** What a [TEXT] column keeps of a field of the body, when the driver
    binds it and the store does not take it as [NULL]. *)
Definition kept (v : option value) : option value :=
  match bind_value (bound v) with
  | Ok bound_value => column bound_value
  | Throw _ => None
  end.

Definition no_slash (s : string) : bool :=
  all_chars (fun c => negb (Ascii.eqb c "/")) s.

(** *** C1 *)

Definition truthy_string (v : option value) : bool :=
  match v with
  | Some (VStr s) => negb (s =? "")%string
  | _ => false
  end.

(** As the claim words it: the body fails to parse, or one of [name],
    [phone], [address] is not a truthy string, or [items] is not an array. *)
Definition C1_condition (parsed : result value) : bool :=
  match parsed with
  | Throw _ => true
  | Ok b =>
      negb (truthy_string (field "name" b))
      || negb (truthy_string (field "phone" b))
      || negb (truthy_string (field "address" b))
      || negb (isArray (field "items" b))
  end.

Definition C1_as_stated (rt : Runtime) (env : Env) (req : Request) (t : table) : Prop :=
  method req = "POST" -> pathname req = "/checkout" ->
  (fst (fetch rt env req t) = missing_fields
   <-> C1_condition (JSON_parse (text req)) = true).

(** As the code has it: the body parses to something other than [null], and
    one of [name], [phone], [address], [items] is falsy or [items] is not an
    array. *)
Definition missing_required (parsed : result value) : bool :=
  match parsed with
  | Throw _ => false
  | Ok VNull => false
  | Ok b =>
      negb (truthy_opt (field "name" b))
      || negb (truthy_opt (field "phone" b))
      || negb (truthy_opt (field "address" b))
      || negb (isArray (field "items" b))
  end.

(** *** C2 *)

(** As the claim words it: no truthy [id], or a [quantity] that is not a
    number greater than or equal to 1. *)
Definition C2_invalid (item : value) : bool :=
  negb (truthy_opt (field "id" item))
  || negb match field "quantity" item with
          | Some (VNum n) => num_ge_1 n
          | _ => false
          end.

(** The body parses with truthy [name], [phone], [address] and [items] the
    array [its]. *)
Definition checkout_body (b : value) (its : list value) : Prop :=
  truthy_opt (field "name" b) = true
  /\ truthy_opt (field "phone" b) = true
  /\ truthy_opt (field "address" b) = true
  /\ field "items" b = Some (VArr its).

Definition C2_as_stated (rt : Runtime) (env : Env) (req : Request) (t : table) : Prop :=
  method req = "POST" -> pathname req = "/checkout" ->
  forall b its i,
    JSON_parse (text req) = Ok b -> checkout_body b its -> its <> [] ->
    find C2_invalid its = Some i ->
    exists message,
      fetch rt env req t
      = (json_response (VObj [("error", VStr message); ("invalidItem", i)]) 400, t).

(** The items that are invalid in the claim's words and that the test of
    line 170 does not answer with the 400: [null], and an item with a truthy
    [id] and a truthy [quantity] that is not a number and that the
    comparison does not convert to a number below 1. *)
Definition C2_exception (item : value) : bool :=
  is_null item
  || (truthy_opt (field "id" item)
      && match field "quantity" item with
         | None | Some (VNum _) => false
         | Some q =>
             truthy q
             && match ToNumber (Some q) with
                | Ok n => negb (num_lt_1 n)
                | Throw _ => true
                end
         end).

(** *** C3 *)

Definition C3_as_stated (rt : Runtime) (env : Env) (req : Request) (t : table) : Prop :=
  method req = "POST" -> pathname req = "/checkout" ->
  forall b its r t',
    JSON_parse (text req) = Ok b -> field "items" b = Some (VArr its) ->
    fetch rt env req t = (r, t') -> status r = 201 ->
    exists returned,
      items_of (fst (fetch rt env (GET ("/order/" ++ new_orderId rt)) t'))
      = Some returned
      /\ deep_equal returned (VArr its) = true.

(** *** C4 *)


(** *** C5 *)


(** *** C6 *)



(** As the code has it, for the element of row [r]: *)
Definition parsed_element (r : row) (v : value) : value :=
  VObj [("id", VStr (id r)); ("name", name r); ("phone", phone r);
        ("address", address r);
        ("created_at", VStr (Date_toISOString (created_at r * 1000)));
        ("items", v)].

Definition failed_element (r : row) (m : string) : value :=
  VObj [("id", VStr (id r)); ("name", name r); ("phone", phone r);
        ("address", address r);
        ("created_at", VStr (Date_toISOString (created_at r * 1000)));
        ("items", VArr []);
        ("parseError", VStr m)].

Definition listed (db : D1Database) (r : row) : value :=
  match fails db (SELECT_FROM_orders_WHERE_id (id r)) with
  | Some m => failed_element r m
  | None =>
      if (items r =? "")%string then VObj (partial_row r)
      else match JSON_parse (items r) with
           | Ok v => parsed_element r v
           | Throw m => failed_element r m
           end
  end.

(** *** C7 *)

(** The statements [GET /orders] runs on table [t]. *)
Definition run_by_get_orders (t : table) (q : statement) : Prop :=
  q = SELECT_FROM_orders_ORDER_BY_created_at_DESC
  \/ exists r, In r t /\ q = SELECT_FROM_orders_WHERE_id (id r).

(** As the claim words it for [GET /orders]: if a statement it runs raises
    [m], the response is the 404 or the 500 of the outer [catch]. *)
Definition C7_as_stated (rt : Runtime) (db : D1Database) (t : table) : Prop :=
  forall q m,
    run_by_get_orders t q -> fails db q = Some m ->
    (forall q', q' <> q -> fails db q' = None) ->
    fst (fetch rt {| PRODUCTS_KV := None; DB := Some db |} (GET "/orders") t)
    = orders_catch m.

(** What the [INSERT] with the values [r] bound raises on table [t], if it
    raises: what the store fails with, or the violation of a [NOT NULL]
    column, or that of the primary key. *)
Definition insert_raises (db : D1Database) (t : table) (r : row) : option string :=
  match fails db (INSERT_INTO_orders r) with
  | Some m => Some m
  | None =>
      match kept_row r with
      | inl col => Some (D1_not_null_violation col)
      | inr kept =>
          if existsb (fun r' => (id r' =? id kept)%string) t
          then Some D1_unique_violation
          else None
      end
  end.

(** What the statement of lines 217-219, bound for the body [b] and run on
    table [t], raises, if it raises: what the driver throws at a value it
    does not bind, or what the [INSERT] raises. *)
Definition checkout_insert_raises (rt : Runtime) (db : D1Database) (t : table)
    (b : value) : option string :=
  match order_values rt b with
  | Throw m => Some m
  | Ok bound_values => insert_raises db t bound_values
  end.

(** *** The rest of the router *)

(** [error] of a response body. *)
Definition error_of (r : Response) : option value :=
  match body r with
  | Some o => field "error" o
  | None => None
  end.

(** The object [GET /order/:id] answers with for row [r], its items parsed
    to [v]. *)
Definition found_order (r : row) (v : value) : value :=
  VObj [("id", VStr (id r)); ("name", name r); ("phone", phone r);
        ("address", address r); ("items", v);
        ("created_at", VStr (Date_toISOString (created_at r * 1000)))].

(** A response has a body, and either one of the statuses [ok], or one of
    the statuses [failing] with a text under [error]. *)
Definition answers (r : Response) (ok failing : list Z) : Prop :=
  body r <> None
  /\ (In (status r) ok
      \/ (In (status r) failing /\ exists m, error_of r = Some (VStr m))).

(** Every [created_at] of the table is a date [toISOString] prints. *)
Definition dates_in_range (t : table) : Prop :=
  Forall (fun r => time_value (created_at r * 1000)) t.

(** The clock of every request of a sequence shows a time value. *)
Definition clocks_valid (reqs : list (Runtime * Env * Request)) : Prop :=
  Forall (fun x => time_value (Date_now (fst (fst x)) 1)) reqs.

(** From the most recent to the oldest. *)
Definition descending (rows : list row) : Prop :=
  StronglySorted (fun a b => created_at b <= created_at a) rows.

End Specification.

(** [xs.join(sep)] for a one-character separator. *)
Fixpoint join_sep (sep : ascii) (xs : list string) : string :=
  match xs with
  | [] => ""
  | [x] => x
  | x :: rest => x ++ String sep (join_sep sep rest)
  end.

(** ** Sample data for the closed examples *)

Module Sample.

Import Reference.

Definition rt : Runtime :=
  {| Date_now := fun _ => 1700000000123;
     Math_random_toString_36 := "0.4fzyo82mvyr";
     Promise_race := 0 |}.

(** The readings when [Math.random()] is one half: [(0.5).toString(36)]. *)
Definition rt_half : Runtime :=
  {| Date_now := fun _ => 1700000000123;
     Math_random_toString_36 := "0.i";
     Promise_race := 0 |}.

(** A store that raises nothing. *)
Definition db : D1Database := {| fails := fun _ => None |}.

(** A store whose connection is lost on the look-up of order [o1]. *)
Definition db_lost : D1Database :=
  {| fails := fun q =>
       match q with
       | SELECT_FROM_orders_WHERE_id i =>
           if (i =? "o1")%string then Some "D1_ERROR: Network connection lost."
           else None
       | _ => None
       end |}.

(** A store without its table. *)
Definition db_no_table : D1Database :=
  {| fails := fun _ => Some "D1_ERROR: no such table: orders: SQLITE_ERROR" |}.

Definition env : Env := {| PRODUCTS_KV := None; DB := Some db |}.

Definition env_no_table : Env := {| PRODUCTS_KV := None; DB := Some db_no_table |}.

Definition env_lost : Env := {| PRODUCTS_KV := None; DB := Some db_lost |}.

Definition item (quantity : value) : value :=
  VObj [("id", VStr "p1"); ("quantity", quantity)].

Definition order_of (name : value) (its : value) : value :=
  VObj [("name", name); ("phone", VStr "555"); ("address", VStr "1 Main St");
        ("items", its)].

(** [{"name":"Ann","phone":"555","address":"1 Main St","items":[{"id":"p1","quantity":2}]}] *)
Definition two_of_p1 : string :=
  stringify (order_of (VStr "Ann") (VArr [item (VNum (Finite false 2 0))])).

(** The same with [quantity] [true], the string ["2"], [0], and with [name]
    the number 5. *)
Definition true_of_p1 : string :=
  stringify (order_of (VStr "Ann") (VArr [item (VBool true)])).

Definition text_2_of_p1 : string :=
  stringify (order_of (VStr "Ann") (VArr [item (VStr "2")])).

Definition none_of_p1 : string :=
  stringify (order_of (VStr "Ann") (VArr [item (VNum (Finite false 0 0))])).

Definition from_5 : string :=
  stringify (order_of (VNum (Finite false 5 0)) (VArr [item (VNum (Finite false 2 0))])).

(** An order of one item with no [id] and with [quantity] the string
    ["2"]. *)
Definition text_2_of_none : string :=
  stringify (order_of (VStr "Ann") (VArr [VObj [("quantity", VStr "2")]])).

(** The same with [quantity] written [1e999], which reads as [Infinity]. *)
Definition many_of_p1 : string :=
  "{" ++ quote "name" ++ ":" ++ quote "Ann" ++ "," ++ quote "phone" ++ ":"
  ++ quote "555" ++ "," ++ quote "address" ++ ":" ++ quote "1 Main St" ++ ","
  ++ quote "items" ++ ":[{" ++ quote "id" ++ ":" ++ quote "p1" ++ ","
  ++ quote "quantity" ++ ":1e999}]}".

Definition o1 (its : string) : row :=
  {| id := "o1"; name := VStr "Ann"; phone := VStr "555";
     address := VStr "1 Main St"; items := its; created_at := 1700000000 |}.

(** An order whose [items] column is the empty text. *)
Definition o2 : row :=
  {| id := "o2"; name := VStr "Bob"; phone := VStr "556";
     address := VStr "2 Main St"; items := ""; created_at := 1700000060 |}.

(** A product store of three keys, the last of which has no document. *)
Definition widget : value := VObj [("id", VStr "p1"); ("name", VStr "Widget")].
Definition gadget : value := VObj [("id", VStr "p2"); ("name", VStr "Gadget")].

(** A document whose [name] is an object with a [toString] of its own. *)
Definition odd : value :=
  VObj [("name", VObj [("toString", VNum (Finite false 0 0))])].

Definition doc (k : string) : value :=
  if (k =? "p1")%string then widget
  else if (k =? "p2")%string then gadget
  else if (k =? "zero")%string then VNum (Finite false 0 0)
  else if (k =? "odd")%string then odd
  else VNull.

Definition kv : KVNamespace :=
  {| kv_list := Ok ["p1"; "gone"; "p2"]; kv_get := fun k => Ok (doc k) |}.

(** A product store whose listing is refused. *)
Definition kv_down : KVNamespace :=
  {| kv_list := Throw "KV LIST failed: 503"; kv_get := fun k => Ok (doc k) |}.

Definition env_kv : Env := {| PRODUCTS_KV := Some kv; DB := None |}.

Definition env_kv_down : Env := {| PRODUCTS_KV := Some kv_down; DB := None |}.

Definition env_unbound : Env := {| PRODUCTS_KV := None; DB := None |}.

(** An order whose [created_at] is beyond the range of dates. *)
Definition o3 : row :=
  {| id := "o3"; name := VStr "Cy"; phone := VStr "557";
     address := VStr "3 Main St"; items := "[]"; created_at := 9000000000000 |}.

(** An order placed in the same second as [o1], after it. *)
Definition o4 : row :=
  {| id := "o4"; name := VStr "Dee"; phone := VStr "558";
     address := VStr "4 Main St"; items := "[]"; created_at := 1700000000 |}.

(** An order with no items at all. *)
Definition nothing : string := stringify (order_of (VStr "Ann") (VArr [])).

(** The row of the checkout [from_5]: the number is kept as a text. *)
Definition five_row : row :=
  {| id := new_orderId rt; name := VStr "5.0"; phone := VStr "555";
     address := VStr "1 Main St";
     items := stringify (VArr [item (VNum (Finite false 2 0))]);
     created_at := 1700000000 |}.


End Sample.

(** * Properties *)

Section Properties.

Context {P : Platform}.

(** ** Strings *)

Lemma eqb_true (a b : string) : (a =? b)%string = true -> a = b.
Proof. apply String.eqb_eq. Qed.

(** ** Every response but the preflight is JSON *)

Ltac destruct_match :=
  match goal with
  | |- context [match ?x with _ => _ end] => destruct x eqn:?
  | H : context [match ?x with _ => _ end] |- _ => destruct x eqn:?
  end.

Ltac inv_ok :=
  repeat match goal with
    | H : Ok _ = Ok _ |- _ => injection H as H; try subst
    | H : Some _ = Some _ |- _ => injection H as H; try subst
    | H : (_, _) = (_, _) |- _ => injection H as ? ?; try subst
    | H : Throw _ = Throw _ |- _ => injection H as H; try subst
    | H : Ok _ = Throw _ |- _ => discriminate H
    | H : Throw _ = Ok _ |- _ => discriminate H
    | H : Some _ = None |- _ => discriminate H
    | H : None = Some _ |- _ => discriminate H
    end.

Ltac cases := repeat (destruct_match; inv_ok; simpl in *; try reflexivity).



Lemma for_item_of_returns its r :
  for_item_of its = Ok (Some r) -> exists item, In item its /\ r = invalid_item item.
Proof.
  induction its as [|item rest IH]; simpl; [discriminate|].
  unfold bind. destruct (item_rejected item) as [[|]|]; try discriminate.
  - intros [= <-]. exists item; auto.
  - intros H. destruct (IH H) as (i & Hi & ->). exists i; auto.
Qed.

Ltac unfold_checkout :=
  unfold post_checkout, checkout_try, mbind, lift, mret.





(** ** The table only grows *)

Lemma fetch_checkout rt env req t :
  method req = "POST" -> pathname req = "/checkout" ->
  fetch rt env req t = post_checkout rt env req t.
Proof. intros Hm Hp. unfold fetch. rewrite Hm, Hp. reflexivity. Qed.

Lemma existsb_id_false (i : string) (t : table) :
  existsb (fun r' => (id r' =? i)%string) t = false -> ~ In i (map id t).
Proof.
  induction t as [|r t IH]; simpl; [tauto|].
  intros H. apply orb_false_iff in H as [H1 H2].
  intros [E|E]; [|exact (IH H2 E)].
  rewrite E, String.eqb_refl in H1. discriminate.
Qed.

Lemma app_one_neq {A : Type} (l : list A) (x : A) : (l ++ [x])%list <> l.
Proof.
  intros H. apply (f_equal (@length A)) in H.
  rewrite length_app in H. simpl in H. lia.
Qed.

(** The store keeps [id], [items] and [created_at] as they are bound. *)
Lemma kept_row_inr (v r : row) :
  kept_row v = inr r ->
  id r = id v /\ items r = items v /\ created_at r = created_at v
  /\ column (name v) = Some (name r) /\ column (phone v) = Some (phone r)
  /\ column (address v) = Some (address r).
Proof.
  unfold kept_row.
  destruct (column (name v)), (column (phone v)), (column (address v));
    try discriminate.
  intros [= <-]. simpl. auto 6.
Qed.

(** What [run()] does: it raises and leaves the table, or it appends the
    row the store keeps, under an [id] that no row had. *)
Lemma d1_run_inv db (v : row) (t : table) x t' :
  d1_run db v t = (x, t') ->
  (exists m, x = Throw m /\ t' = t /\ insert_raises db t v = Some m)
  \/ (exists r, x = Ok tt /\ t' = (t ++ [r])%list /\ kept_row v = inr r
                /\ insert_raises db t v = None /\ ~ In (id r) (map id t)).
Proof.
  unfold d1_run, insert_raises.
  destruct (fails db (INSERT_INTO_orders v)) as [m|].
  { intros [= <- <-]. left. eauto. }
  destruct (kept_row v) as [col|r].
  { intros [= <- <-]. left. eauto. }
  destruct (existsb (fun r' => (id r' =? id r)%string) t) eqn:E.
  { intros [= <- <-]. left. eauto. }
  intros [= <- <-]. right. exists r.
  repeat split; auto. now apply existsb_id_false.
Qed.

Ltac run_inv :=
  match goal with
  | H : d1_run _ _ _ = _ |- _ =>
      let m := fresh "m" in
      let r := fresh "r" in
      let Hkept := fresh "Hkept" in
      let Hraises := fresh "Hraises" in
      let Hfresh := fresh "Hfresh" in
      apply d1_run_inv in H
        as [(m & ? & ? & Hraises)|(r & ? & ? & Hkept & Hraises & Hfresh)];
      inv_ok; subst; try discriminate
  end.

(** What [POST /checkout] leaves: the table as it was, or the table with one
    row more, under an [id] that no row had. *)
Lemma post_checkout_table rt env req t :
  snd (post_checkout rt env req t) = t
  \/ exists r, snd (post_checkout rt env req t) = (t ++ [r])%list
               /\ id r = new_orderId rt
               /\ ~ In (id r) (map id t).
Proof.
  unfold_checkout.
  cases; auto; run_inv; auto; right; exists r;
    destruct (kept_row_inr _ _ Hkept) as (Hid & _); auto.
Qed.

Lemma fetch_table rt env req t :
  snd (fetch rt env req t) = t
  \/ (method req = "POST" /\ pathname req = "/checkout"
      /\ exists r, snd (fetch rt env req t) = (t ++ [r])%list
                   /\ id r = new_orderId rt
                   /\ ~ In (id r) (map id t)).
Proof.
  unfold fetch.
  destruct (method req =? "OPTIONS")%string; [auto|].
  destruct ((method req =? "GET")%string && (pathname req =? "/products")%string);
    [auto|].
  destruct ((method req =? "GET")%string && startsWith "/product/" (pathname req));
    [auto|].
  destruct ((method req =? "POST")%string && (pathname req =? "/checkout")%string)
    eqn:E.
  - apply andb_true_iff in E as [Hm Hp].
    apply eqb_true in Hm, Hp.
    destruct (post_checkout_table rt env req t) as [H|H]; auto.
  - repeat destruct_match; auto.
Qed.

Lemma serve_appends (reqs : list (Runtime * Env * Request)) (t : table) :
  exists added, serve reqs t = (t ++ added)%list.
Proof.
  revert t; induction reqs as [|[[rt env] req] reqs IH]; intros t; simpl.
  - exists []. now rewrite app_nil_r.
  - destruct (fetch_table rt env req t) as [->|(_ & _ & r & -> & _)].
    + apply IH.
    + destruct (IH (t ++ [r])%list) as [added ->].
      exists (r :: added). now rewrite <- app_assoc.
Qed.

(** C8.  Whatever the request, the rows of [orders] stay as they are and
    where they are: the table after the request is the table before it, or,
    for [POST /checkout] only, the table before it with one row appended
    under a fresh [id]; and so the table after any sequence of requests is
    the table before them followed by the rows appended since. *)
Theorem orders_never_updated_or_deleted rt env req t :
  (snd (fetch rt env req t) = t
   \/ (method req = "POST" /\ pathname req = "/checkout"
       /\ exists r, snd (fetch rt env req t) = (t ++ [r])%list
                    /\ ~ In (id r) (map id t)))
  /\ forall reqs, exists added, serve reqs t = (t ++ added)%list.
Proof.
  split.
  - destruct (fetch_table rt env req t) as [H|(Hm & Hp & r & H & _ & Hr)]; auto.
    right. repeat split; auto. exists r; auto.
  - intros reqs. apply serve_appends.
Qed.

(** ** Atomicity of checkout *)

Lemma toISOString_time_value (ms : Z) :
  time_value ms -> toISOString (ms / 1000 * 1000) = Ok (Date_toISOString (ms / 1000 * 1000)).
Proof.
  unfold time_value, toISOString. intros H.
  replace (Z.abs (ms / 1000 * 1000) <=? 8640000000000000) with true; [reflexivity|].
  symmetry. apply Z.leb_le.
  pose proof (Z.div_mod ms 1000 ltac:(lia)) as E.
  pose proof (Z.mod_pos_bound ms 1000 ltac:(lia)) as B.
  lia.
Qed.

Lemma item_accepted_get item :
  item_rejected item = Ok false -> exists q, get item "quantity" = Ok q.
Proof.
  unfold item_rejected, get, bind.
  destruct item; try discriminate; eauto.
Qed.

Lemma reduce_after_validation its :
  for_item_of its = Ok None ->
  forall sum, exists total, reduce_quantities sum its = Ok total.
Proof.
  induction its as [|item rest IH]; simpl; intros H sum; [eauto|].
  unfold bind in *.
  destruct (item_rejected item) as [[|]|] eqn:E; try discriminate.
  destruct (item_accepted_get _ E) as [q ->]. apply IH, H.
Qed.

(** C9.  [POST /checkout], with the clock showing a time value: a response
    whose status is not 201 leaves the table as it was, and the status is 201
    exactly when the table has gained one row. *)
Theorem checkout_atomic rt env req t :
  method req = "POST" -> pathname req = "/checkout" ->
  time_value (Date_now rt 1) ->
  (status (fst (fetch rt env req t)) <> 201 -> snd (fetch rt env req t) = t)
  /\ (status (fst (fetch rt env req t)) = 201
      <-> exists r, snd (fetch rt env req t) = (t ++ [r])%list).
Proof.
  intros Hm Hp Hclock. rewrite (fetch_checkout _ _ _ _ Hm Hp).
  pose proof (toISOString_time_value _ Hclock) as Hiso.
  unfold_checkout; unfold checkout_catch.
  cases;
    try run_inv;
    try match goal with
      | H : for_item_of _ = Ok (Some _) |- _ =>
          destruct (for_item_of_returns _ _ H) as (i & _ & ->); simpl
      end;
    try match goal with
      | H : for_item_of ?its = Ok None, H' : reduce_quantities ?s ?its = Throw _ |- _ =>
          destruct (reduce_after_validation _ H s) as [? E];
          rewrite E in H'; discriminate H'
      end;
    try congruence;
    try (split; [intros; try reflexivity; try congruence
                |split; [intros H; first [discriminate H | eauto]
                        |intros [? E]; try reflexivity;
                         exfalso; symmetry in E; exact (app_one_neq _ _ E)]]).
Qed.

(** ** A single order whose items do not parse *)

Lemma fetch_order rt env req t rest :
  method req = "GET" -> pathname req = "/order/" ++ rest ->
  fetch rt env req t = (get_order env req t, t).
Proof.
  intros Hm Hp. unfold fetch. rewrite Hm, Hp. cbn.
  destruct rest; reflexivity.
Qed.

(** C10.  [GET /order/:id]: when the store gives the row [o] for the id and
    the [items] of [o] do not parse, the response is 500 with the one field
    [error], the message of the parse failure; there is no [items] and no
    [parseError] in it, and the table is as it was. *)
Theorem single_order_parse_failure rt env db req t rest o m :
  method req = "GET" -> pathname req = "/order/" ++ rest ->
  DB env = Some db ->
  fails db (SELECT_FROM_orders_WHERE_id (pop (split "/" (pathname req)))) = None ->
  find (fun r => (id r =? pop (split "/" (pathname req)))%string) t = Some o ->
  JSON_parse (items o) = Throw m ->
  fetch rt env req t = (json_response (VObj [("error", VStr m)]) 500, t)
  /\ items_of (fst (fetch rt env req t)) = None.
Proof.
  intros Hm Hp Hdb Hfails Hfind Hparse.
  rewrite (fetch_order _ _ _ _ _ Hm Hp).
  unfold get_order, d1_first, bind, items_of.
  rewrite Hdb, Hfails, Hfind, Hparse. simpl. split; reflexivity.
Qed.

(** ** The required fields of a checkout *)

Lemma array_is_truthy (v : option value) : isArray v = true -> truthy_opt v = true.
Proof. destruct v as [[]|]; simpl; congruence. Qed.

Lemma required_fields_test (b : value) :
  b <> VNull ->
  negb (truthy_opt (field "name" b)) || negb (truthy_opt (field "phone" b))
  || negb (truthy_opt (field "address" b)) || negb (truthy_opt (field "items" b))
  || negb (isArray (field "items" b))
  = missing_required (Ok b).
Proof.
  intros Hb.
  assert (missing_required (Ok b)
          = negb (truthy_opt (field "name" b)) || negb (truthy_opt (field "phone" b))
            || negb (truthy_opt (field "address" b))
            || negb (isArray (field "items" b))) as ->
    by (destruct b; try reflexivity; congruence).
  destruct (isArray (field "items" b)) eqn:E.
  - rewrite (array_is_truthy _ E). simpl. now rewrite !orb_false_r.
  - simpl. now rewrite !orb_true_r.
Qed.

Lemma destructure_not_null (b : value) : b <> VNull -> destructure b = Ok tt.
Proof. destruct b; try reflexivity; congruence. Qed.

Lemma checkout_catch_status m : status (checkout_catch m) = 500.
Proof. unfold checkout_catch. destruct (no_such_table m); reflexivity. Qed.

(** [POST /checkout] on a body that parses to [b], not [null], and has what
    is required: the rest of the [try] block. *)
Lemma checkout_not_missing rt env req t b :
  JSON_parse (text req) = Ok b -> b <> VNull ->
  missing_required (Ok b) = false ->
  fst (post_checkout rt env req t) <> missing_fields.
Proof.
  intros Hparse Hb Hreq.
  unfold_checkout. rewrite Hparse, (destructure_not_null _ Hb).
  rewrite (required_fields_test _ Hb), Hreq.
  cases;
    try match goal with
      | H : for_item_of _ = Ok (Some _) |- _ =>
          destruct (for_item_of_returns _ _ H) as (i & _ & ->)
      end;
    try discriminate;
    intros E; apply (f_equal status) in E; rewrite checkout_catch_status in E;
    discriminate E.
Qed.

(** C1 (amended).  [POST /checkout] responds 400 with
    [{error: "Missing required fields: name, phone, address, items (array)"}]
    exactly when the body parses as JSON to something other than [null] and
    one of [name], [phone], [address] is falsy or [items] is not an array.
    A body that does not parse, or that parses to [null], goes to the
    [catch] block instead and gets its 500. *)
Theorem checkout_missing_fields rt env req t :
  method req = "POST" -> pathname req = "/checkout" ->
  (fst (fetch rt env req t) = missing_fields
   <-> missing_required (JSON_parse (text req)) = true)
  /\ (forall m, JSON_parse (text req) = Throw m ->
                fetch rt env req t = (checkout_catch m, t))
  /\ (JSON_parse (text req) = Ok VNull ->
      fetch rt env req t = (checkout_catch TypeError_destructure_null, t)).
Proof.
  intros Hm Hp. rewrite (fetch_checkout _ _ _ _ Hm Hp).
  assert (Hthrow : forall m, JSON_parse (text req) = Throw m ->
                             post_checkout rt env req t = (checkout_catch m, t)).
  { intros m E. unfold_checkout. now rewrite E. }
  assert (Hnull : JSON_parse (text req) = Ok VNull ->
                  post_checkout rt env req t
                  = (checkout_catch TypeError_destructure_null, t)).
  { intros E. unfold_checkout. now rewrite E. }
  split; [|split; assumption].
  destruct (JSON_parse (text req)) as [b|m] eqn:Hparse.
  - destruct (missing_required (Ok b)) eqn:Hreq.
    + split; [reflexivity|]. intros _.
      assert (Hb : b <> VNull) by (intros ->; discriminate Hreq).
      unfold_checkout. rewrite Hparse, (destructure_not_null _ Hb).
      now rewrite (required_fields_test _ Hb), Hreq.
    + split; [|discriminate]. intros E. exfalso.
      destruct b; try (revert E; apply (checkout_not_missing _ _ _ _ _ Hparse);
                       [discriminate|exact Hreq]).
      rewrite (Hnull eq_refl) in E. simpl in E.
      apply (f_equal status) in E. rewrite checkout_catch_status in E.
      discriminate E.
  - split; [|discriminate]. rewrite (Hthrow _ eq_refl). simpl.
    intros E. apply (f_equal status) in E. rewrite checkout_catch_status in E.
    discriminate E.
Qed.

(** ** The first invalid item *)

Lemma num_lt_1_ge_1 (n : number) :
  num_truthy n = true -> num_lt_1 n = negb (num_ge_1 n).
Proof.
  destruct n as [|neg|neg m k]; simpl; try discriminate.
  - now rewrite negb_involutive.
  - intros H. apply negb_true_iff in H. rewrite H. simpl.
    destruct neg; simpl; [reflexivity|]. apply N.ltb_antisym.
Qed.

Lemma num_ge_1_truthy (n : number) : num_ge_1 n = true -> num_truthy n = true.
Proof.
  destruct n as [|neg|neg m k]; simpl; try discriminate; [reflexivity|].
  intros H. apply andb_true_iff in H as [H _].
  now apply andb_true_iff in H as [H _].
Qed.

(** An item that is valid in the claim's words passes the test of line
    170. *)
Lemma item_rejected_valid (item : value) :
  C2_invalid item = false -> item_rejected item = Ok false.
Proof.
  destruct item; try discriminate.
  unfold C2_invalid, item_rejected, get, bind, lt_1, ToNumber. simpl.
  destruct (truthy_opt (lookup "id" fields)); simpl; [|discriminate].
  destruct (lookup "quantity" fields) as [[]|]; simpl; try discriminate.
  intros H. apply negb_false_iff in H.
  pose proof (num_ge_1_truthy _ H) as Ht. rewrite Ht. simpl.
  now rewrite (num_lt_1_ge_1 _ Ht), H.
Qed.

(** An item that is invalid in the claim's words is answered by the test of
    line 170, the exceptions apart. *)
Lemma item_rejected_invalid (item : value) :
  C2_invalid item = true -> C2_exception item = false ->
  item_rejected item = Ok true.
Proof.
  destruct item; try discriminate; try reflexivity.
  unfold C2_invalid, C2_exception, item_rejected, get, bind, lt_1. simpl.
  destruct (truthy_opt (lookup "id" fields)); simpl; [|reflexivity].
  destruct (lookup "quantity" fields) as [q|]; [|reflexivity].
  destruct q as [|c|n|s|l|fs]; simpl.
  - reflexivity.
  - destruct c; simpl; intros _ H; [discriminate H|reflexivity].
  - intros H _. destruct (num_truthy n) eqn:E; simpl; [|reflexivity].
    now rewrite (num_lt_1_ge_1 _ E), H.
  - destruct (s =? "")%string; simpl; [reflexivity|].
    intros _ H. apply negb_false_iff in H. now rewrite H.
  - destruct (ObjectToNumber (VArr l)); simpl; intros _ H; [|discriminate H].
    apply negb_false_iff in H. now rewrite H.
  - destruct (ObjectToNumber (VObj fs)); simpl; intros _ H; [|discriminate H].
    apply negb_false_iff in H. now rewrite H.
Qed.

Lemma for_item_of_first (pre : list value) (i : value) (post : list value) :
  existsb C2_invalid pre = false ->
  C2_invalid i = true -> C2_exception i = false ->
  for_item_of (pre ++ i :: post) = Ok (Some (invalid_item i)).
Proof.
  intros Hvalid Hinvalid Hi.
  induction pre as [|item rest IH]; simpl.
  - now rewrite (item_rejected_invalid _ Hinvalid Hi).
  - simpl in Hvalid.
    apply orb_false_iff in Hvalid as [Hitem Hrest].
    rewrite (item_rejected_valid _ Hitem). simpl. now apply IH.
Qed.

(** The message of line 172 is not the one the specification prints: where
    the specification has the sign for greater-or-equal, the literal in the
    source file has three other characters. *)
Remark invalid_item_message_as_in_source :
  invalid_item_message <> "Each item must have id and valid quantity (≥1)".
Proof. discriminate. Qed.

(** C2 (amended).  [POST /checkout] on a body that parses with truthy
    [name], [phone], [address] and an [items] array: if an item [i] has no
    truthy [id] or a [quantity] that is not a number greater than or equal
    to 1, and no item before it is such, the response is 400 with the
    message of line 172 and [invalidItem] the item [i], and the table is as
    it was; unless [i] is [null], or has a truthy [id] and a truthy
    [quantity] that is not a number and that the comparison with 1 does not
    convert to a number below 1. *)
Theorem checkout_first_invalid_item rt env req t b pre i post :
  method req = "POST" -> pathname req = "/checkout" ->
  JSON_parse (text req) = Ok b -> checkout_body b (pre ++ i :: post) ->
  existsb C2_invalid pre = false ->
  C2_invalid i = true -> C2_exception i = false ->
  fetch rt env req t
  = (json_response
       (VObj [("error", VStr invalid_item_message); ("invalidItem", i)]) 400,
     t).
Proof.
  intros Hm Hp Hparse (Hname & Hphone & Haddress & Hitems) Hvalid Hinvalid Hi.
  rewrite (fetch_checkout _ _ _ _ Hm Hp).
  assert (Hb : b <> VNull) by (intros ->; discriminate Hitems).
  unfold_checkout. rewrite Hparse, (destructure_not_null _ Hb).
  rewrite Hname, Hphone, Haddress, Hitems. simpl.
  rewrite (for_item_of_first _ _ _ Hvalid Hinvalid Hi).
  destruct pre; reflexivity.
Qed.

(** ** Store errors *)

Lemma no_such_table_includes (m : string) :
  no_such_table m = includes "no such table" m.
Proof. unfold no_such_table. destruct m; reflexivity. Qed.

Lemma fetch_orders rt env req t :
  method req = "GET" -> pathname req = "/orders" ->
  fetch rt env req t = (get_orders rt env t, t).
Proof. intros Hm Hp. unfold fetch. rewrite Hm, Hp. reflexivity. Qed.

(** ** The list of orders *)

Lemma In_insert_by_created_at_desc (x r : row) (l : list row) :
  In x (insert_by_created_at_desc r l) <-> x = r \/ In x l.
Proof.
  induction l as [|r' l IH]; simpl.
  - intuition congruence.
  - destruct (created_at r' <=? created_at r); simpl; rewrite ?IH;
      intuition congruence.
Qed.

Lemma In_order_by_created_at_desc (x : row) (t : table) :
  In x (order_by_created_at_desc t) <-> In x t.
Proof.
  induction t as [|r t IH]; simpl; [tauto|].
  rewrite In_insert_by_created_at_desc, IH. intuition congruence.
Qed.

(** Under the primary key, the look-up by [id] of a row of the table gives
    that row. *)
Lemma find_primary_key (t : table) (r : row) :
  primary_key t -> In r t ->
  find (fun r' => (id r' =? id r)%string) t = Some r.
Proof.
  unfold primary_key. induction t as [|r' t IH]; simpl; [tauto|].
  intros Hnodup Hin. inversion Hnodup as [|? ? Hnotin Hnodup']; subst.
  destruct Hin as [->|Hin].
  - now rewrite String.eqb_refl.
  - destruct (id r' =? id r)%string eqn:E; [|auto].
    apply String.eqb_eq in E. exfalso. apply Hnotin.
    rewrite E. now apply in_map.
Qed.

Lemma Promise_all_map {A B : Type} (race : nat) (f : A -> result B) (g : A -> B)
    (l : list A) :
  (forall x, In x l -> f x = Ok (g x)) -> Promise_all race f l = Ok (map g l).
Proof.
  intros H. unfold Promise_all.
  assert (E : rejections f l = [] /\ fulfilled f l = map g l).
  { induction l as [|x l IH]; simpl; [now split|].
    rewrite (H x (or_introl eq_refl)).
    destruct IH as [-> ->]; [|now split].
    intros y Hy. apply H. now right. }
  destruct E as [-> ->]. reflexivity.
Qed.

Lemma rejections_In {A B : Type} (f : A -> result B) (l : list A) (m : string) :
  In m (rejections f l) <-> exists x, In x l /\ f x = Throw m.
Proof.
  induction l as [|y l IH]; simpl.
  - split; [contradiction|]. now intros [x [[] _]].
  - destruct (f y) as [b|m'] eqn:Ey; simpl; rewrite IH; split.
    + intros [x [Hx E]]. exists x. auto.
    + intros [x [[->|Hx] E]]; [congruence|]. now exists x.
    + intros [<-|[x [Hx E]]]; [now exists y; auto|]. exists x. auto.
    + intros [x [[->|Hx] E]]; [left; congruence|]. right. now exists x.
Qed.

(** A rejected [Promise.all] carries the message of one of the rejected
    promises. *)
Lemma Promise_all_throws {A B : Type} (race : nat) (f : A -> result B)
    (l : list A) (m : string) :
  Promise_all race f l = Throw m -> exists x, In x l /\ f x = Throw m.
Proof.
  unfold Promise_all. destruct (rejections f l) as [|m0 ms] eqn:E; [discriminate|].
  intros H.
  assert (Hin : In m (m0 :: ms)).
  { injection H as <-.
    apply (nth_In (m0 :: ms) m0 (n := race mod length (m0 :: ms))).
    apply Nat.mod_upper_bound. discriminate. }
  apply rejections_In. now rewrite E.
Qed.

(** It is rejected as soon as one promise is. *)
Lemma Promise_all_rejected {A B : Type} (race : nat) (f : A -> result B)
    (l : list A) (x : A) (m0 : string) :
  In x l -> f x = Throw m0 -> exists m, Promise_all race f l = Throw m.
Proof.
  intros Hin Hx. unfold Promise_all.
  destruct (rejections f l) as [|m ms] eqn:E; [|eauto].
  assert (H : In m0 (rejections f l)) by (apply rejections_In; eauto).
  rewrite E in H. destruct H.
Qed.

Lemma toISOString_ok (ms : Z) :
  time_value ms -> toISOString ms = Ok (Date_toISOString ms).
Proof.
  unfold time_value, toISOString. intros H.
  now rewrite (proj2 (Z.leb_le _ _) H).
Qed.

Lemma with_parsed_items_listed db (t : table) (r : row) :
  primary_key t -> In r t -> time_value (created_at r * 1000) ->
  with_parsed_items db t r = Ok (listed db r).
Proof.
  intros Hkey Hin Htime.
  unfold with_parsed_items, listed, d1_first, try_catch, bind.
  rewrite (toISOString_ok _ Htime).
  destruct (fails db (SELECT_FROM_orders_WHERE_id (id r))); [reflexivity|].
  rewrite (find_primary_key _ _ Hkey Hin).
  destruct (items r =? "")%string; [reflexivity|]. simpl.
  destruct (JSON_parse (items r)); reflexivity.
Qed.

(** The callback of [GET /orders] returns for every row whose date is in
    range. *)
Lemma with_parsed_items_returns db (t : table) (r : row) :
  time_value (created_at r * 1000) -> exists v, with_parsed_items db t r = Ok v.
Proof.
  intros Htime.
  unfold with_parsed_items, d1_first, try_catch, bind.
  rewrite (toISOString_ok _ Htime).
  cases; eauto.
Qed.

(** When the look-up of its row raises, the callback gives the row with no
    items and the message. *)
Lemma with_parsed_items_lookup_raises db (t : table) (r : row) (m : string) :
  time_value (created_at r * 1000) ->
  fails db (SELECT_FROM_orders_WHERE_id (id r)) = Some m ->
  with_parsed_items db t r = Ok (failed_element r m).
Proof.
  intros Htime Hfails.
  unfold with_parsed_items, d1_first, try_catch, bind.
  now rewrite (toISOString_ok _ Htime), Hfails.
Qed.

(** [POST /checkout] on a request that went through validation, with the
    store bound: the rest of the [try] block. *)
Lemma checkout_try_validated rt env db req t b its :
  JSON_parse (text req) = Ok b -> checkout_body b its -> its <> [] ->
  for_item_of its = Ok None -> DB env = Some db ->
  checkout_try rt env req t
  = (v <~ lift (order_values rt b) ;;
     _ <~ d1_run db v ;;
     iso <~ lift (toISOString (Date_now rt 1 / 1000 * 1000)) ;;
     totalItems <~ lift (reduce_quantities (VNum (Finite false 0 0)) its) ;;
     mret (order_placed (new_orderId rt) (Date_now rt 1 / 1000) iso
             (bound (field "name" b)) (length its) totalItems)) t.
Proof.
  intros Hparse (Hn & Hph & Ha & Hi) Hne Hval Hdb.
  assert (Hb : b <> VNull) by (intros ->; discriminate Hi).
  unfold checkout_try, order_values, mbind, lift, mret, bind.
  rewrite Hparse, (destructure_not_null _ Hb).
  rewrite Hn, Hph, Ha. rewrite (array_is_truthy (field "items" b)), Hi
    by (now rewrite Hi).
  simpl.
  destruct its as [|item rest]; [congruence|].
  cbn [length Nat.eqb]. rewrite Hval, Hdb.
  destruct (bind_value (bound (field "name" b))); [|reflexivity].
  destruct (bind_value (bound (field "phone" b))); [|reflexivity].
  destruct (bind_value (bound (field "address" b))); reflexivity.
Qed.

(** What [run()] raises goes to the [catch] block. *)
Lemma post_checkout_insert_raises rt env db req t b its v m :
  JSON_parse (text req) = Ok b -> checkout_body b its -> its <> [] ->
  for_item_of its = Ok None -> DB env = Some db ->
  order_values rt b = Ok v -> insert_raises db t v = Some m ->
  post_checkout rt env req t = (checkout_catch m, t).
Proof.
  intros Hparse Hbody Hne Hval Hdb Hvalues Hraises.
  unfold post_checkout.
  rewrite (checkout_try_validated _ _ _ _ _ _ _ Hparse Hbody Hne Hval Hdb).
  unfold mbind, lift. rewrite Hvalues.
  destruct (d1_run db v t) as [x t'] eqn:E.
  run_inv; congruence.
Qed.

(** What the driver does not bind goes there too, before the statement is
    run. *)
Lemma post_checkout_bind_throws rt env db req t b its m :
  JSON_parse (text req) = Ok b -> checkout_body b its -> its <> [] ->
  for_item_of its = Ok None -> DB env = Some db ->
  order_values rt b = Throw m ->
  post_checkout rt env req t = (checkout_catch m, t).
Proof.
  intros Hparse Hbody Hne Hval Hdb Hvalues.
  unfold post_checkout.
  rewrite (checkout_try_validated _ _ _ _ _ _ _ Hparse Hbody Hne Hval Hdb).
  unfold mbind, lift. now rewrite Hvalues.
Qed.

(** A statement that raises nothing appends the row the store keeps. *)
Lemma d1_run_ok db (v : row) (t : table) :
  insert_raises db t v = None ->
  exists r, kept_row v = inr r /\ d1_run db v t = (Ok tt, (t ++ [r])%list).
Proof.
  intros Hraises. destruct (d1_run db v t) as [x t'] eqn:E.
  run_inv; [congruence|eauto].
Qed.

(** C7 (amended).  With the store bound: when the [INSERT] of a checkout
    that went through validation raises [m] (as it is bound or as it is
    run), [POST /checkout] responds 500,
    with [{error: "Orders table not found. Please run the schema.sql file
    first.", details: m}] if [m] contains [no such table] and with
    [{error: m}] if not, and the table is as it was; when the select of all
    orders raises [m], [GET /orders] responds 404 with [{error: "Orders
    table not found. No orders have been placed yet.", details: m}] if [m]
    contains [no such table] and 500 with [{error: m}] if not; and when the
    select of all orders raises nothing, every [created_at] is in the range
    of dates and the look-up of an order raises [m], [GET /orders] responds
    200 with an array where that order has [items: []] and
    [parseError: m]. *)
Theorem store_errors rt env db t m :
  DB env = Some db ->
  (forall req b its,
     method req = "POST" -> pathname req = "/checkout" ->
     JSON_parse (text req) = Ok b -> checkout_body b its -> its <> [] ->
     for_item_of its = Ok None ->
     checkout_insert_raises rt db t b = Some m ->
     fetch rt env req t
     = (if includes "no such table" m
        then json_response
               (VObj [("error",
                       VStr "Orders table not found. Please run the schema.sql file first.");
                      ("details", VStr m)]) 500
        else json_response (VObj [("error", VStr m)]) 500,
        t))
  /\ (forall req,
        method req = "GET" -> pathname req = "/orders" ->
        fails db SELECT_FROM_orders_ORDER_BY_created_at_DESC = Some m ->
        fetch rt env req t
        = (if includes "no such table" m
           then json_response
                  (VObj [("error",
                          VStr "Orders table not found. No orders have been placed yet.");
                         ("details", VStr m)]) 404
           else json_response (VObj [("error", VStr m)]) 500,
           t))
  /\ (forall req r,
        method req = "GET" -> pathname req = "/orders" ->
        fails db SELECT_FROM_orders_ORDER_BY_created_at_DESC = None ->
        dates_in_range t -> In r t ->
        fails db (SELECT_FROM_orders_WHERE_id (id r)) = Some m ->
        exists els,
          fetch rt env req t = (json_response (VArr els) 200, t)
          /\ In (VObj [("id", VStr (id r)); ("name", name r);
                       ("phone", phone r); ("address", address r);
                       ("created_at",
                        VStr (Date_toISOString (created_at r * 1000)));
                       ("items", VArr []);
                       ("parseError", VStr m)]) els).
Proof.
  intros Hdb. split; [|split].
  - intros req b its Hm Hp Hparse Hbody Hne Hval Hraises.
    rewrite (fetch_checkout _ _ _ _ Hm Hp).
    unfold checkout_insert_raises in Hraises.
    destruct (order_values rt b) as [v|m'] eqn:Hvalues.
    + rewrite (post_checkout_insert_raises _ _ _ _ _ _ _ _ _
                 Hparse Hbody Hne Hval Hdb Hvalues Hraises).
      unfold checkout_catch. now rewrite <- no_such_table_includes.
    + injection Hraises as ->.
      rewrite (post_checkout_bind_throws _ _ _ _ _ _ _ _
                 Hparse Hbody Hne Hval Hdb Hvalues).
      unfold checkout_catch. now rewrite <- no_such_table_includes.
  - intros req Hm Hp Hfails.
    rewrite (fetch_orders _ _ _ _ Hm Hp).
    unfold get_orders, orders_try, d1_all, bind. rewrite Hdb, Hfails.
    unfold orders_catch. now rewrite no_such_table_includes.
  - intros req r Hm Hp Hall Hdates Hin Hfails.
    rewrite (fetch_orders _ _ _ _ Hm Hp).
    unfold dates_in_range in Hdates. rewrite Forall_forall in Hdates.
    set (element := fun r' => match with_parsed_items db t r' with
                              | Ok v => v
                              | Throw _ => VNull
                              end).
    exists (map element (order_by_created_at_desc t)). split.
    + unfold get_orders, orders_try, d1_all, bind. rewrite Hdb, Hall.
      rewrite (Promise_all_map _ _ element); [reflexivity|].
      intros r' Hr'. apply -> In_order_by_created_at_desc in Hr'.
      unfold element.
      now destruct (with_parsed_items_returns db t r' (Hdates r' Hr')) as [v ->].
    + change (In (failed_element r m) (map element (order_by_created_at_desc t))).
      replace (failed_element r m) with (element r).
      * apply in_map. now apply In_order_by_created_at_desc.
      * unfold element.
        now rewrite (with_parsed_items_lookup_raises db t r m (Hdates r Hin) Hfails).
Qed.


(** ** Successful checkouts *)

Lemma status_get_products rt env : status (get_products rt env) <> 201.
Proof. unfold get_products, catch_500, bind. cases; discriminate. Qed.

Lemma status_get_product env req : status (get_product env req) <> 201.
Proof. unfold get_product, catch_500, bind. cases; discriminate. Qed.

Lemma status_get_orders rt env t : status (get_orders rt env t) <> 201.
Proof. unfold get_orders, orders_try, orders_catch, bind. cases; discriminate. Qed.

Lemma status_get_order env req t : status (get_order env req t) <> 201.
Proof. unfold get_order, catch_500, bind. cases; discriminate. Qed.

(** A 201 comes from [POST /checkout] alone. *)
Lemma fetch_201_checkout rt env req t :
  status (fst (fetch rt env req t)) = 201 ->
  fetch rt env req t = post_checkout rt env req t.
Proof.
  unfold fetch.
  destruct (method req =? "OPTIONS")%string; [discriminate|].
  destruct ((method req =? "GET")%string && (pathname req =? "/products")%string);
    [intros H; destruct (status_get_products _ _ H)|].
  destruct ((method req =? "GET")%string && startsWith "/product/" (pathname req));
    [intros H; destruct (status_get_product _ _ H)|].
  destruct ((method req =? "POST")%string && (pathname req =? "/checkout")%string);
    [reflexivity|].
  destruct ((method req =? "GET")%string && (pathname req =? "/orders")%string);
    [intros H; destruct (status_get_orders _ _ _ H)|].
  destruct ((method req =? "GET")%string && startsWith "/order/" (pathname req));
    [intros H; destruct (status_get_order _ _ _ H)|].
  destruct ((method req =? "GET")%string && (pathname req =? "/health")%string);
    discriminate.
Qed.

(** What a 201 tells: the body parsed to some [b] with an array of items
    that went through the loop, the store is bound, the row of [b] went in
    under an [id] no row had, and the response is [order_placed]. *)
Lemma post_checkout_201 rt env req t :
  status (fst (post_checkout rt env req t)) = 201 ->
  exists b r iso total,
    JSON_parse (text req) = Ok b
    /\ isArray (field "items" b) = true
    /\ for_item_of (elements (field "items" b)) = Ok None
    /\ order_row rt b = Some r
    /\ snd (post_checkout rt env req t) = (t ++ [r])%list
    /\ ~ In (new_orderId rt) (map id t)
    /\ toISOString (Date_now rt 1 / 1000 * 1000) = Ok iso
    /\ fst (post_checkout rt env req t)
       = order_placed (new_orderId rt) (Date_now rt 1 / 1000) iso
           (bound (field "name" b))
           (length (elements (field "items" b))) total.
Proof.
  unfold_checkout; unfold checkout_catch.
  cases;
    try run_inv;
    try match goal with
      | H : for_item_of _ = Ok (Some _) |- _ =>
          destruct (for_item_of_returns _ _ H) as (i & _ & ->); simpl
      end;
    try discriminate.
  intros _.
  match goal with
  | H : _ || negb (isArray _) = false |- _ =>
      apply orb_false_iff in H as [_ H]; apply negb_false_iff in H
  end.
  destruct (kept_row_inr _ _ Hkept) as (Hid & _). cbn [id] in Hid.
  do 4 eexists.
  split; [reflexivity|]. split; [assumption|]. split; [assumption|].
  split.
  { unfold order_row, order_values, bind.
    repeat match goal with
      | H : bind_value _ = Ok _ |- _ => rewrite H; clear H
      end.
    now rewrite Hkept. }
  split; [reflexivity|]. split; [now rewrite <- Hid|].
  split; reflexivity.
Qed.

(** The row of a checkout has the new id, the items as [JSON.stringify]
    prints them and the clock in seconds. *)
Lemma order_row_Some rt b r :
  order_row rt b = Some r ->
  id r = new_orderId rt
  /\ items r = JSON_stringify (bound (field "items" b))
  /\ created_at r = Date_now rt 1 / 1000
  /\ kept (field "name" b) = Some (name r)
  /\ kept (field "phone" b) = Some (phone r)
  /\ kept (field "address" b) = Some (address r).
Proof.
  unfold order_row, order_values, kept, bind.
  destruct (bind_value (bound (field "name" b))); [|discriminate].
  destruct (bind_value (bound (field "phone" b))); [|discriminate].
  destruct (bind_value (bound (field "address" b))); [|discriminate].
  destruct (kept_row _) as [|r'] eqn:E; [discriminate|].
  intros [= ->].
  destruct (kept_row_inr _ _ E) as (H1 & H2 & H3 & H4 & H5 & H6). auto 7.
Qed.

(** A string is kept as it is. *)
Lemma kept_string (s : string) : kept (Some (VStr s)) = Some (VStr s).
Proof. reflexivity. Qed.

(** ** The order id *)


Lemma all_chars_substring (p : ascii -> bool) (n m : nat) (s : string) :
  all_chars p s = true -> all_chars p (String.substring n m s) = true.
Proof.
  revert n m; induction s as [|c s IH]; intros n m H.
  - destruct n, m; reflexivity.
  - simpl in H. apply andb_true_iff in H as [Hc Hs].
    destruct n as [|n]; simpl; [|auto].
    destruct m as [|m]; simpl; [reflexivity|].
    now rewrite Hc, IH.
Qed.

Lemma all_chars_app (p : ascii -> bool) (a b : string) :
  all_chars p (a ++ b) = all_chars p a && all_chars p b.
Proof.
  induction a as [|c a IH]; simpl; [reflexivity|].
  now rewrite IH, andb_assoc.
Qed.

Lemma all_chars_impl (p q : ascii -> bool) (s : string) :
  (forall c, p c = true -> q c = true) ->
  all_chars p s = true -> all_chars q s = true.
Proof.
  intros Hpq. induction s as [|c s IH]; simpl; [reflexivity|].
  intros H. apply andb_true_iff in H as [Hc Hs].
  now rewrite (Hpq _ Hc), IH.
Qed.

(** The suffix of the id, when the random text is that of a fraction in
    base 36. *)
Lemma suffix_base36 (s : string) :
  radix36_fraction s = true -> all_chars is_base36 (substr 2 9 s) = true.
Proof.
  unfold radix36_fraction, substr.
  destruct s as [|a [|b ds]]; try discriminate.
  - intros _. reflexivity.
  - destruct (Ascii.eqb a "0") eqn:Ea; [apply Ascii.eqb_eq in Ea; subst a|].
    + destruct (Ascii.eqb b ".") eqn:Eb; [apply Ascii.eqb_eq in Eb; subst b|].
      * intros H. apply andb_true_iff in H as [_ H].
        simpl. now apply all_chars_substring.
      * destruct b as [[] [] [] [] [] [] [] []]; try discriminate.
    + destruct a as [[] [] [] [] [] [] [] []]; try discriminate.
Qed.

Lemma base36_no_slash (c : ascii) :
  is_base36 c = true -> negb (Ascii.eqb c "/") = true.
Proof.
  destruct (Ascii.eqb c "/") eqn:E; [|reflexivity].
  apply Ascii.eqb_eq in E. subst c. discriminate.
Qed.

Lemma no_slash_uint (d : Decimal.uint) :
  no_slash (NilEmpty.string_of_uint d) = true.
Proof. unfold no_slash. induction d; simpl; auto. Qed.

Lemma no_slash_string_of_Z (z : Z) : no_slash (string_of_Z z) = true.
Proof.
  unfold string_of_Z, NilZero.string_of_int, NilZero.string_of_uint.
  destruct (Z.to_int z) as [d|d]; destruct d; unfold no_slash; simpl;
    try reflexivity; apply (no_slash_uint d).
Qed.

Lemma no_slash_new_orderId (rt : Runtime) :
  radix36_fraction (Math_random_toString_36 rt) = true ->
  no_slash (new_orderId rt) = true.
Proof.
  intros H. unfold new_orderId, no_slash.
  rewrite !all_chars_app.
  fold (no_slash (string_of_Z (Date_now rt 0))).
  rewrite no_slash_string_of_Z.
  rewrite (all_chars_impl _ _ _ base36_no_slash (suffix_base36 _ H)).
  reflexivity.
Qed.


Lemma orderId_of_order_placed o c iso customer n total :
  orderId_of (order_placed o c iso customer n total) = Some (VStr o).
Proof. reflexivity. Qed.


(** ** Reading an order back *)

Lemma split_no_sep (sep : ascii) (s : string) :
  all_chars (fun c => negb (Ascii.eqb c sep)) s = true -> split sep s = [s].
Proof.
  induction s as [|c s IH]; simpl; [reflexivity|].
  intros H. apply andb_true_iff in H as [Hc Hs].
  apply negb_true_iff in Hc. now rewrite Hc, IH.
Qed.

(** The last segment of [/order/<id>] is the id. *)
Lemma pop_order_path (i : string) :
  no_slash i = true -> pop (split "/" ("/order/" ++ i)) = i.
Proof.
  intros H. cbn -[split]. simpl. rewrite (split_no_sep _ _ H). reflexivity.
Qed.

(** The look-up of a fresh id in the table grown by its row, and by whatever
    came after. *)
Lemma find_appended (r : row) (t added : table) :
  ~ In (id r) (map id t) ->
  find (fun r' => (id r' =? id r)%string) ((t ++ [r]) ++ added)%list = Some r.
Proof.
  intros H. rewrite <- app_assoc.
  induction t as [|r' t IH]; simpl in *.
  - now rewrite String.eqb_refl.
  - destruct (id r' =? id r)%string eqn:E.
    + apply String.eqb_eq in E. tauto.
    + apply IH. tauto.
Qed.

(** C3 (amended).  When a checkout responds 201 for the items [its], and
    [JSON.parse(JSON.stringify(its))] gives [its] back, [GET /order/:id] for
    the id of that order, right away or after any further requests, with the
    store bound and its look-up raising nothing, responds 200 with [items]
    equal to [its]. *)
Theorem order_items_round_trip rt env req t b its reqs rt' env' db' :
  JSON_parse (text req) = Ok b -> field "items" b = Some (VArr its) ->
  status (fst (fetch rt env req t)) = 201 ->
  radix36_fraction (Math_random_toString_36 rt) = true ->
  JSON_parse (JSON_stringify (VArr its)) = Ok (VArr its) ->
  DB env' = Some db' ->
  fails db' (SELECT_FROM_orders_WHERE_id (new_orderId rt)) = None ->
  status (fst (fetch rt' env' (GET ("/order/" ++ new_orderId rt))
                 (serve reqs (snd (fetch rt env req t))))) = 200
  /\ items_of (fst (fetch rt' env' (GET ("/order/" ++ new_orderId rt))
                      (serve reqs (snd (fetch rt env req t)))))
     = Some (VArr its).
Proof.
  intros Hparse Hitems H201 Hrandom Hround Hdb Hfails.
  pose proof (fetch_201_checkout _ _ _ _ H201) as E. rewrite E in *.
  destruct (post_checkout_201 _ _ _ _ H201)
    as (b0 & r & iso & total & Hparse0 & _ & _ & Hrow & Htable & Hfresh & Hiso & _).
  assert (b0 = b) as -> by congruence.
  destruct (order_row_Some _ _ _ Hrow) as (Hid & Hitems_r & Hcreated & _).
  rewrite Htable.
  destruct (serve_appends reqs (t ++ [r])%list) as [added ->].
  rewrite (fetch_order rt' env' (GET ("/order/" ++ new_orderId rt)) _
             (new_orderId rt) eq_refl eq_refl).
  unfold get_order, d1_first, bind. cbn [pathname GET fst].
  rewrite (pop_order_path _ (no_slash_new_orderId _ Hrandom)), Hdb, Hfails.
  rewrite <- Hid in Hfresh |- *.
  rewrite (find_appended r t added Hfresh).
  rewrite Hitems_r, Hcreated, Hitems. cbn [bound].
  rewrite Hround, Hiso. split; reflexivity.
Qed.

(** * The rest of the router *)

(** ** The product routes *)

Lemma fetch_products rt env req t :
  method req = "GET" -> pathname req = "/products" ->
  fetch rt env req t = (get_products rt env, t).
Proof. intros Hm Hp. unfold fetch. rewrite Hm, Hp. reflexivity. Qed.

Lemma fetch_product rt env req t rest :
  method req = "GET" -> pathname req = "/product/" ++ rest ->
  fetch rt env req t = (get_product env req, t).
Proof.
  intros Hm Hp. unfold fetch. rewrite Hm, Hp. cbn.
  destruct rest; reflexivity.
Qed.

Lemma Promise_all_rejects {A B : Type} (race : nat) (f : A -> result B)
    (l : list A) (x : A) (m0 : string) :
  (forall y m, In y l -> f y = Throw m -> m = m0) ->
  In x l -> f x = Throw m0 -> Promise_all race f l = Throw m0.
Proof.
  intros Hall Hin Hx.
  destruct (Promise_all_rejected race f l x m0 Hin Hx) as [m Hm].
  rewrite Hm. f_equal.
  destruct (Promise_all_throws _ _ _ _ Hm) as [y [Hy Ey]].
  exact (Hall y m Hy Ey).
Qed.

Lemma filter_not_null (l : list value) :
  Forall (fun p => p <> VNull) (filter (fun p => negb (is_null p)) l).
Proof.
  apply Forall_forall. intros p Hp. apply filter_In in Hp as [_ Hp].
  intros ->. discriminate Hp.
Qed.

(** X1.  [GET /products], with the product store bound, its listing giving
    [keys] and every look-up giving a document or [null]: the response is
    200 with the documents that are not [null], in the order of the keys
    (the empty array when there is no key), and no element of it is
    [null]. *)
Theorem products_listed rt env kv req t keys doc :
  method req = "GET" -> pathname req = "/products" ->
  PRODUCTS_KV env = Some kv -> kv_list kv = Ok keys ->
  (forall k, In k keys -> kv_get kv k = Ok (doc k)) ->
  fetch rt env req t
  = (json_response
       (VArr (filter (fun p => negb (is_null p)) (map doc keys))) 200, t)
  /\ Forall (fun p => p <> VNull)
       (filter (fun p => negb (is_null p)) (map doc keys)).
Proof.
  intros Hm Hp Hkv Hlist Hget.
  split; [|apply filter_not_null].
  rewrite (fetch_products _ _ _ _ Hm Hp).
  unfold get_products, catch_500, bind. rewrite Hkv, Hlist.
  destruct keys as [|k keys]; [reflexivity|].
  cbn [length Nat.eqb].
  now rewrite (Promise_all_map _ _ doc _ Hget).
Qed.

(** X2.  [GET /products] when the product store fails: if the listing is
    refused with [m], or the look-up of some key is refused with [m] and no
    look-up is refused with another message, the response is 500 with
    [{error: m}]; no part of the list is returned. *)
Theorem products_unavailable rt env kv req t m :
  method req = "GET" -> pathname req = "/products" ->
  PRODUCTS_KV env = Some kv ->
  kv_list kv = Throw m
  \/ (exists keys k,
        kv_list kv = Ok keys /\ In k keys /\ kv_get kv k = Throw m
        /\ (forall k' m', In k' keys -> kv_get kv k' = Throw m' -> m' = m)) ->
  fetch rt env req t = (json_response (VObj [("error", VStr m)]) 500, t).
Proof.
  intros Hm Hp Hkv H.
  rewrite (fetch_products _ _ _ _ Hm Hp).
  unfold get_products, catch_500, bind. rewrite Hkv.
  destruct H as [Hlist|(keys & k & Hlist & Hin & Hk & Hothers)];
    rewrite Hlist; [reflexivity|].
  rewrite (Promise_all_rejects _ _ _ k m Hothers Hin Hk).
  destruct keys; [contradiction|reflexivity].
Qed.

(** X3.  [GET /product/:id], with the product store bound, looks up the
    last segment of the path.  When the look-up gives a truthy [doc], the
    name of [doc] is put in a line of the log: the response is 200 with
    [doc] if the name converts to a string (as [undefined] does, when [doc]
    has no name), and 500 with [{error: m}] if the conversion throws [m].
    When it gives a [doc] that is not truthy the response is 404 with
    [{error: "Product not found"}], which is so for [null] (no such product)
    and also for a stored document that is [0], [false] or the empty string;
    when the look-up is refused with [m] the response is 500 with
    [{error: m}]. *)
Theorem product_lookup rt env kv req t rest :
  method req = "GET" -> pathname req = "/product/" ++ rest ->
  PRODUCTS_KV env = Some kv ->
  (forall doc,
     kv_get kv (pop (split "/" (pathname req))) = Ok doc ->
     fetch rt env req t
     = (if truthy doc
        then match ToString (field "name" doc) with
             | Ok _ => json_response doc 200
             | Throw m => json_response (VObj [("error", VStr m)]) 500
             end
        else json_response (VObj [("error", VStr "Product not found")]) 404,
        t))
  /\ (forall m,
        kv_get kv (pop (split "/" (pathname req))) = Throw m ->
        fetch rt env req t = (json_response (VObj [("error", VStr m)]) 500, t)).
Proof.
  intros Hm Hp Hkv.
  rewrite (fetch_product _ _ _ _ _ Hm Hp).
  unfold get_product, catch_500, bind. rewrite Hkv.
  split; [intros doc Hget|intros m Hget]; rewrite Hget; [|reflexivity].
  destruct (truthy doc); [|reflexivity].
  destruct (ToString (field "name" doc)); reflexivity.
Qed.

(** ** The id of a path *)

Lemma split_not_nil (sep : ascii) (s : string) : split sep s <> [].
Proof.
  induction s as [|c s IH]; simpl; [discriminate|].
  destruct (Ascii.eqb c sep); [discriminate|].
  destruct (split sep s); [contradiction|discriminate].
Qed.

Lemma split_no_sep_in (sep : ascii) (s : string) :
  Forall (fun seg => all_chars (fun c => negb (Ascii.eqb c sep)) seg = true)
    (split sep s).
Proof.
  induction s as [|c s IH]; simpl.
  - repeat constructor.
  - destruct (Ascii.eqb c sep) eqn:E.
    + constructor; [reflexivity|assumption].
    + destruct (split sep s) as [|seg segs]; [repeat constructor; simpl; now rewrite E|].
      inversion IH; subst. constructor; [|assumption].
      simpl. now rewrite E.
Qed.

(** Joining the segments with the separator gives the string back. *)
Lemma join_split (sep : ascii) (s : string) : join_sep sep (split sep s) = s.
Proof.
  induction s as [|c s IH]; simpl; [reflexivity|].
  destruct (Ascii.eqb c sep) eqn:E.
  - apply Ascii.eqb_eq in E. subst c.
    pose proof (split_not_nil sep s) as Hne.
    destruct (split sep s) as [|seg segs]; [contradiction|].
    rewrite <- IH. reflexivity.
  - pose proof (split_not_nil sep s) as Hne.
    destruct (split sep s) as [|seg segs]; [contradiction|].
    rewrite <- IH. destruct segs; reflexivity.
Qed.

Lemma append_assoc (a b c : string) : (a ++ b) ++ c = a ++ (b ++ c).
Proof. induction a as [|x a IH]; simpl; [reflexivity|]. now rewrite IH. Qed.

Lemma join_last (sep : ascii) (xs : list string) :
  xs <> [] ->
  exists pre,
    join_sep sep xs = pre ++ last xs ""
    /\ (pre = "" \/ exists pre', pre = pre' ++ String sep "").
Proof.
  induction xs as [|x xs IH]; [contradiction|]. intros _.
  destruct xs as [|y xs].
  - exists "". split; [reflexivity|now left].
  - destruct (IH ltac:(discriminate)) as (pre & E & Hpre).
    exists (x ++ String sep pre). split.
    + change (join_sep sep (x :: y :: xs))
        with (x ++ String sep (join_sep sep (y :: xs))).
      rewrite E. change (last (x :: y :: xs) "") with (last (y :: xs) "").
      now rewrite append_assoc.
    + right. destruct Hpre as [->|(pre' & ->)].
      * now exists x.
      * exists (x ++ String sep pre'). now rewrite append_assoc.
Qed.

(** X4.  The id that [GET /product/:id] and [GET /order/:id] read,
    [url.pathname.split('/').pop()], is what follows the last slash of the
    path: it has no slash in it, the path ends with it, and what comes
    before it in the path is empty or ends with a slash.  So
    [/order/a/b] looks up [b], and [/order/] looks up the empty id. *)
Theorem id_is_last_segment (path : string) :
  no_slash (pop (split "/" path)) = true
  /\ exists pre,
       path = pre ++ pop (split "/" path)
       /\ (pre = "" \/ exists pre', pre = pre' ++ "/").
Proof.
  unfold pop, no_slash. split.
  - pose proof (split_no_sep_in "/" path) as H.
    pose proof (split_not_nil "/" path) as Hne.
    rewrite Forall_forall in H. apply H.
    destruct (split "/" path) as [|x xs]; [contradiction|].
    apply (@exists_last _ (x :: xs)) in Hne as (l' & a & E).
    rewrite E, last_last. apply in_or_app. right. now left.
  - destruct (join_last "/" (split "/" path) (split_not_nil _ _))
      as (pre & E & Hpre).
    rewrite join_split in E. now exists pre.
Qed.

(** ** Requests that match no route *)

Lemma eqb_false (a b : string) : a <> b -> (a =? b)%string = false.
Proof. apply String.eqb_neq. Qed.

(** X5.  A request gets the default response, 200 with the list of the
    endpoints, and leaves the table as it was, when its method is none of
    [OPTIONS], [GET], [POST] (so [DELETE /products], or [PUT /checkout]),
    when it is a [POST] to a path other than [/checkout], and when it is a
    [GET] of a path that is none of the five. *)
Theorem unmatched_request rt env req t :
  (method req <> "OPTIONS" /\ method req <> "GET" /\ method req <> "POST")
  \/ (method req = "POST" /\ pathname req <> "/checkout")
  \/ (method req = "GET"
      /\ pathname req <> "/products"
      /\ startsWith "/product/" (pathname req) = false
      /\ pathname req <> "/orders"
      /\ startsWith "/order/" (pathname req) = false
      /\ pathname req <> "/health") ->
  fetch rt env req t = (default_response, t).
Proof.
  unfold fetch.
  intros [(Ho & Hg & Hp)|[(Hm & Hp)|(Hm & H1 & H2 & H3 & H4 & H5)]].
  - now rewrite (eqb_false _ _ Ho), (eqb_false _ _ Hg), (eqb_false _ _ Hp).
  - rewrite Hm, (eqb_false _ _ Hp). reflexivity.
  - rewrite Hm, (eqb_false _ _ H1), H2, (eqb_false _ _ H3), H4, (eqb_false _ _ H5).
    reflexivity.
Qed.

(** ** Statuses and error bodies *)

Ltac answer :=
  unfold answers; (split; [discriminate|]); simpl;
  first [ left; tauto
        | right; split; [tauto|eexists; reflexivity] ].

(** From what a route answers to the shape of its response. *)
Ltac shape A :=
  let Hb := fresh "Hb" in
  let Hs := fresh "Hs" in
  let m := fresh "m" in
  let Hm := fresh "Herr" in
  destruct A as [Hb [Hs|[Hs [m Hm]]]]; simpl in Hs;
  repeat match goal with
    | H : _ \/ _ |- _ => destruct H
    | H : False |- _ => destruct H
    end;
  match goal with
  | H : _ = status _ |- _ => rewrite <- H
  end;
  (split;
   [first [ left; left; reflexivity | left; right; reflexivity
          | right; split;
            [first [ left; reflexivity | right; left; reflexivity
                   | right; right; reflexivity ]
            | exists m; exact Hm ] ]
   |]);
  (split;
   [let K := fresh "K" in
    intros K; destruct K as [K|K]; first [discriminate K | split; assumption]|]);
  (split;
   [let K := fresh "K" in intros K; first [discriminate K | assumption]|]);
  (split; [intros ?; contradiction | intros ?; contradiction]).

Lemma answers_get_products rt env : answers (get_products rt env) [200] [500].
Proof. unfold get_products, catch_500, bind. cases; answer. Qed.

Lemma answers_get_product env req : answers (get_product env req) [200] [404; 500].
Proof. unfold get_product, catch_500, bind. cases; answer. Qed.

Lemma answers_post_checkout rt env req t :
  answers (fst (post_checkout rt env req t)) [201] [400; 500].
Proof.
  unfold_checkout; unfold checkout_catch.
  cases;
    try match goal with
      | H : for_item_of _ = Ok (Some _) |- _ =>
          destruct (for_item_of_returns _ _ H) as (i & _ & ->)
      end;
    answer.
Qed.

Lemma answers_get_orders rt env t : answers (get_orders rt env t) [200] [404; 500].
Proof. unfold get_orders, orders_try, orders_catch, bind. cases; answer. Qed.

Lemma answers_get_order env req t : answers (get_order env req t) [200] [404; 500].
Proof. unfold get_order, catch_500, bind. cases; answer. Qed.

(** X6.  Whatever the request and whatever the stores do, the status of the
    response is 200, 201, 400, 404 or 500, and a response whose status is
    400, 404 or 500 has a JSON object for body with a text under [error].
    201 and 400 are given to [POST /checkout] alone and 404 to a [GET]
    alone; only the response to [OPTIONS] has no body. *)
Theorem response_shape rt env req t :
  ((status (fst (fetch rt env req t)) = 200
    \/ status (fst (fetch rt env req t)) = 201)
   \/ ((status (fst (fetch rt env req t)) = 400
        \/ status (fst (fetch rt env req t)) = 404
        \/ status (fst (fetch rt env req t)) = 500)
       /\ exists m, error_of (fst (fetch rt env req t)) = Some (VStr m)))
  /\ (status (fst (fetch rt env req t)) = 201
      \/ status (fst (fetch rt env req t)) = 400 ->
      method req = "POST" /\ pathname req = "/checkout")
  /\ (status (fst (fetch rt env req t)) = 404 -> method req = "GET")
  /\ (body (fst (fetch rt env req t)) = None <-> method req = "OPTIONS").
Proof.
  unfold fetch.
  destruct (method req =? "OPTIONS")%string eqn:Eo.
  { apply eqb_true in Eo. simpl.
    split; [left; now left|].
    split; [intros [H|H]; discriminate H|].
    split; [discriminate|]. split; auto. }
  apply String.eqb_neq in Eo.
  destruct ((method req =? "GET")%string && (pathname req =? "/products")%string)
    eqn:E1.
  { apply andb_true_iff in E1 as [Hg _]. apply eqb_true in Hg.
    cbn [fst]. shape (answers_get_products rt env). }
  destruct ((method req =? "GET")%string && startsWith "/product/" (pathname req))
    eqn:E2.
  { apply andb_true_iff in E2 as [Hg _]. apply eqb_true in Hg.
    cbn [fst]. shape (answers_get_product env req). }
  destruct ((method req =? "POST")%string && (pathname req =? "/checkout")%string)
    eqn:E3.
  { apply andb_true_iff in E3 as [Hm Hp]. apply eqb_true in Hm, Hp.
    shape (answers_post_checkout rt env req t). }
  destruct ((method req =? "GET")%string && (pathname req =? "/orders")%string)
    eqn:E4.
  { apply andb_true_iff in E4 as [Hg _]. apply eqb_true in Hg.
    cbn [fst]. shape (answers_get_orders rt env t). }
  destruct ((method req =? "GET")%string && startsWith "/order/" (pathname req))
    eqn:E5.
  { apply andb_true_iff in E5 as [Hg _]. apply eqb_true in Hg.
    cbn [fst]. shape (answers_get_order env req t). }
  destruct ((method req =? "GET")%string && (pathname req =? "/health")%string);
    cbn [fst];
    (split; [left; now left|]);
    (split; [intros [H|H]; discriminate H|]);
    (split; [discriminate|]);
    (split; [discriminate|intros H; contradiction]).
Qed.

(** ** The checks of a checkout, in their order *)

(** X7.  [POST /checkout] on a body that parses with truthy [name],
    [phone], [address] and [items] the empty array: the response is 400 with
    [{error: "Cart is empty"}], whether the order store is bound or not, and
    the table is as it was. *)
Theorem checkout_cart_empty rt env req t b :
  method req = "POST" -> pathname req = "/checkout" ->
  JSON_parse (text req) = Ok b -> checkout_body b [] ->
  fetch rt env req t = (json_response (VObj [("error", VStr "Cart is empty")]) 400, t).
Proof.
  intros Hm Hp Hparse (Hname & Hphone & Haddress & Hitems).
  rewrite (fetch_checkout _ _ _ _ Hm Hp).
  assert (Hb : b <> VNull) by (intros ->; discriminate Hitems).
  unfold_checkout. rewrite Hparse, (destructure_not_null _ Hb).
  now rewrite Hname, Hphone, Haddress, Hitems.
Qed.

(** X8.  With no order store bound: [GET /orders] and [GET /order/:id]
    respond 500 with [{error: "Database binding not configured"}], and so
    does [POST /checkout], but only for a request that went through the
    whole validation (a request that fails it gets its 400 first); nothing
    is inserted. *)
Theorem database_unbound rt env req t :
  DB env = None ->
  (method req = "GET" /\ pathname req = "/orders")
  \/ (method req = "GET" /\ exists rest, pathname req = "/order/" ++ rest)
  \/ (method req = "POST" /\ pathname req = "/checkout"
      /\ exists b its,
           JSON_parse (text req) = Ok b /\ checkout_body b its
           /\ its <> [] /\ for_item_of its = Ok None) ->
  fetch rt env req t
  = (json_response (VObj [("error", VStr "Database binding not configured")]) 500, t).
Proof.
  intros Hdb [(Hm & Hp)|[(Hm & rest & Hp)|(Hm & Hp & b & its & Hparse & Hbody & Hne & Hval)]].
  - rewrite (fetch_orders _ _ _ _ Hm Hp).
    unfold get_orders, orders_try. now rewrite Hdb.
  - rewrite (fetch_order _ _ _ _ _ Hm Hp).
    unfold get_order. now rewrite Hdb.
  - destruct Hbody as (Hname & Hphone & Haddress & Hitems).
    rewrite (fetch_checkout _ _ _ _ Hm Hp).
    assert (Hb : b <> VNull) by (intros ->; discriminate Hitems).
    unfold_checkout. rewrite Hparse, (destructure_not_null _ Hb).
    rewrite Hname, Hphone, Haddress, Hitems. simpl.
    destruct its as [|item rest]; [congruence|].
    cbn [length Nat.eqb]. now rewrite Hval, Hdb.
Qed.

(** ** A single order *)

Lemma find_id_absent (i : string) (t : table) :
  ~ In i (map id t) -> find (fun r => (id r =? i)%string) t = None.
Proof.
  induction t as [|r t IH]; simpl; [reflexivity|].
  intros H. destruct (id r =? i)%string eqn:E.
  - apply String.eqb_eq in E. tauto.
  - apply IH. tauto.
Qed.

(** X9.  [GET /order/:id], with the store bound and its look-up raising
    nothing, for an id that no row of the table has: the response is 404
    with [{error: "Order not found"}]. *)
Theorem order_not_found rt env db req t rest :
  method req = "GET" -> pathname req = "/order/" ++ rest ->
  DB env = Some db ->
  fails db (SELECT_FROM_orders_WHERE_id (pop (split "/" (pathname req)))) = None ->
  ~ In (pop (split "/" (pathname req))) (map id t) ->
  fetch rt env req t = (json_response (VObj [("error", VStr "Order not found")]) 404, t).
Proof.
  intros Hm Hp Hdb Hfails Habsent.
  rewrite (fetch_order _ _ _ _ _ Hm Hp).
  unfold get_order, d1_first, bind.
  now rewrite Hdb, Hfails, (find_id_absent _ _ Habsent).
Qed.

(** X10.  [GET /order/:id], with the store bound and its look-up giving the
    row [o], whose [items] parse to [v]: when [created_at] of [o] is in the
    range of dates the response is 200 with the columns of [o], [items]
    replaced by [v] and [created_at] by its ISO string; when it is not, the
    response is 500 with the message of the invalid date. *)
Theorem order_found rt env db req t rest o v :
  method req = "GET" -> pathname req = "/order/" ++ rest ->
  DB env = Some db ->
  fails db (SELECT_FROM_orders_WHERE_id (pop (split "/" (pathname req)))) = None ->
  find (fun r => (id r =? pop (split "/" (pathname req)))%string) t = Some o ->
  JSON_parse (items o) = Ok v ->
  fetch rt env req t
  = (if Z.abs (created_at o * 1000) <=? 8640000000000000
     then json_response (found_order o v) 200
     else json_response (VObj [("error", VStr RangeError_invalid_time)]) 500,
     t).
Proof.
  intros Hm Hp Hdb Hfails Hfind Hparse.
  rewrite (fetch_order _ _ _ _ _ Hm Hp).
  unfold get_order, d1_first, bind, toISOString.
  rewrite Hdb, Hfails, Hfind, Hparse.
  destruct (Z.abs (created_at o * 1000) <=? 8640000000000000); reflexivity.
Qed.

(** ** The list of orders, most recent first *)

Lemma Permutation_insert_by_created_at_desc (r : row) (l : list row) :
  Permutation (insert_by_created_at_desc r l) (r :: l).
Proof.
  induction l as [|r' l IH]; simpl; [apply Permutation_refl|].
  destruct (created_at r' <=? created_at r); [apply Permutation_refl|].
  eapply Permutation_trans; [apply perm_skip, IH|apply perm_swap].
Qed.

Lemma Permutation_order_by_created_at_desc (t : table) :
  Permutation (order_by_created_at_desc t) t.
Proof.
  induction t as [|r t IH]; simpl; [apply Permutation_refl|].
  eapply Permutation_trans; [apply Permutation_insert_by_created_at_desc|].
  now apply perm_skip.
Qed.

Lemma descending_insert (r : row) (l : list row) :
  descending l -> descending (insert_by_created_at_desc r l).
Proof.
  unfold descending. induction l as [|r' l IH]; simpl; intros H.
  - repeat constructor.
  - apply StronglySorted_inv in H as [Hl Hr'].
    destruct (created_at r' <=? created_at r) eqn:E.
    + apply Z.leb_le in E. constructor; [constructor; assumption|].
      constructor; [lia|].
      rewrite Forall_forall in *. intros x Hx. specialize (Hr' x Hx). lia.
    + apply Z.leb_gt in E. constructor; [now apply IH|].
      rewrite Forall_forall in *. intros x Hx.
      apply In_insert_by_created_at_desc in Hx as [->|Hx]; [lia|auto].
Qed.

Lemma descending_order_by_created_at_desc (t : table) :
  descending (order_by_created_at_desc t).
Proof.
  induction t as [|r t IH]; simpl; [constructor|].
  now apply descending_insert.
Qed.

(** A table whose rows were inserted from the most recent to the oldest is
    selected as it is: rows of one [created_at] stay in insertion order. *)
Lemma order_by_created_at_desc_descending (t : table) :
  descending t -> order_by_created_at_desc t = t.
Proof.
  unfold descending. induction t as [|r t IH]; simpl; intros H; [reflexivity|].
  apply StronglySorted_inv in H as [Ht Hr].
  rewrite (IH Ht). destruct t as [|r' t]; [reflexivity|]. simpl.
  inversion Hr as [|? ? Hr' _]; subst.
  now rewrite (proj2 (Z.leb_le _ _) Hr').
Qed.

Lemma get_orders_listed rt env db (t : table) :
  DB env = Some db ->
  fails db SELECT_FROM_orders_ORDER_BY_created_at_DESC = None ->
  primary_key t -> dates_in_range t ->
  get_orders rt env t
  = json_response (VArr (map (listed db) (order_by_created_at_desc t))) 200.
Proof.
  intros Hdb Hfails Hkey Hdates.
  unfold get_orders, orders_try, d1_all, bind. rewrite Hdb, Hfails.
  rewrite (Promise_all_map _ _ (listed db)); [reflexivity|].
  intros r Hin. apply -> In_order_by_created_at_desc in Hin.
  apply (with_parsed_items_listed db t r Hkey Hin).
  unfold dates_in_range in Hdates. rewrite Forall_forall in Hdates. now apply Hdates.
Qed.

(** X11.  [GET /orders], when the select of all orders raises nothing, on a
    table that keeps its primary key and whose dates are in range: the
    response is 200 with an array that has one element for each row of the
    table, no row twice and none left out, from the most recent
    [created_at] to the oldest. *)
Theorem orders_most_recent_first rt env db req t :
  method req = "GET" -> pathname req = "/orders" ->
  DB env = Some db ->
  fails db SELECT_FROM_orders_ORDER_BY_created_at_DESC = None ->
  primary_key t -> dates_in_range t ->
  exists rows,
    Permutation rows t /\ descending rows
    /\ fetch rt env req t = (json_response (VArr (map (listed db) rows)) 200, t).
Proof.
  intros Hm Hp Hdb Hfails Hkey Hdates.
  exists (order_by_created_at_desc t).
  split; [apply Permutation_order_by_created_at_desc|].
  split; [apply descending_order_by_created_at_desc|].
  rewrite (fetch_orders _ _ _ _ Hm Hp).
  now rewrite (get_orders_listed rt env db t Hdb Hfails Hkey Hdates).
Qed.

(** X18.  [GET /orders] on a table whose rows were inserted from the most
    recent to the oldest, as are rows that all have one [created_at] (the
    select of all orders raising nothing, the primary key kept, the dates in
    range): the response is 200 with the elements of the rows in insertion
    order. *)
Theorem orders_in_insertion_order rt env db req t :
  method req = "GET" -> pathname req = "/orders" ->
  DB env = Some db ->
  fails db SELECT_FROM_orders_ORDER_BY_created_at_DESC = None ->
  primary_key t -> dates_in_range t -> descending t ->
  fetch rt env req t = (json_response (VArr (map (listed db) t)) 200, t).
Proof.
  intros Hm Hp Hdb Hfails Hkey Hdates Hdesc.
  rewrite (fetch_orders _ _ _ _ Hm Hp).
  rewrite (get_orders_listed rt env db t Hdb Hfails Hkey Hdates).
  now rewrite (order_by_created_at_desc_descending t Hdesc).
Qed.

(** ** One date out of range fails the whole list *)

Lemma toISOString_throws (ms : Z) (m : string) :
  toISOString ms = Throw m -> m = RangeError_invalid_time.
Proof.
  unfold toISOString. destruct (Z.abs ms <=? 8640000000000000); congruence.
Qed.

Lemma toISOString_out_of_range (ms : Z) :
  ~ time_value ms -> toISOString ms = Throw RangeError_invalid_time.
Proof.
  unfold toISOString, time_value. intros H.
  destruct (Z.abs ms <=? 8640000000000000) eqn:E; [|reflexivity].
  apply Z.leb_le in E. contradiction.
Qed.

(** The callback of [results.map] rejects with one message only. *)
Lemma with_parsed_items_throws db (t : table) (x : row) (m : string) :
  with_parsed_items db t x = Throw m -> m = RangeError_invalid_time.
Proof.
  unfold with_parsed_items, try_catch, bind, d1_first.
  cases; intros;
    repeat match goal with
      | H : toISOString _ = Throw _ |- _ => apply toISOString_throws in H; subst
      end;
    congruence.
Qed.

(** X12.  [GET /orders], when the select of all orders raises nothing: if
    some row has a [created_at] out of the range of dates, and either the
    look-up of that row raises or the table keeps its primary key and the
    [items] of the row are not the empty text, the whole request fails with
    the message of the invalid date, through the outer [catch]; no order is
    listed. *)
Theorem orders_invalid_date rt env db req t r :
  method req = "GET" -> pathname req = "/orders" ->
  DB env = Some db ->
  fails db SELECT_FROM_orders_ORDER_BY_created_at_DESC = None ->
  In r t -> ~ time_value (created_at r * 1000) ->
  fails db (SELECT_FROM_orders_WHERE_id (id r)) <> None
  \/ (primary_key t /\ items r <> "") ->
  fetch rt env req t
  = (if includes "no such table" RangeError_invalid_time
     then json_response
            (VObj [("error",
                    VStr "Orders table not found. No orders have been placed yet.");
                   ("details", VStr RangeError_invalid_time)]) 404
     else json_response (VObj [("error", VStr RangeError_invalid_time)]) 500,
     t).
Proof.
  intros Hm Hp Hdb Hfails Hin Hdate Hrow.
  rewrite (fetch_orders _ _ _ _ Hm Hp).
  assert (Hr : with_parsed_items db t r = Throw RangeError_invalid_time).
  { unfold with_parsed_items, try_catch, bind, d1_first.
    rewrite (toISOString_out_of_range _ Hdate).
    destruct Hrow as [Hraises|[Hkey Hitems]].
    - destruct (fails db (SELECT_FROM_orders_WHERE_id (id r))); [reflexivity|].
      congruence.
    - destruct (fails db (SELECT_FROM_orders_WHERE_id (id r))); [reflexivity|].
      rewrite (find_primary_key _ _ Hkey Hin).
      apply String.eqb_neq in Hitems. rewrite Hitems. simpl.
      destruct (JSON_parse (items r)); reflexivity. }
  unfold get_orders, orders_try, d1_all, bind. rewrite Hdb, Hfails.
  rewrite (Promise_all_rejects _ _ _ r RangeError_invalid_time).
  - unfold orders_catch. now rewrite no_such_table_includes.
  - intros y m _. apply with_parsed_items_throws.
  - now apply In_order_by_created_at_desc.
  - exact Hr.
Qed.

(** ** A checkout that is accepted *)

Lemma for_item_of_all_valid (its : list value) :
  existsb C2_invalid its = false -> for_item_of its = Ok None.
Proof.
  induction its as [|item rest IH]; simpl; [reflexivity|].
  intros Hvalid. apply orb_false_iff in Hvalid as [Hitem Hrest].
  rewrite (item_rejected_valid _ Hitem). simpl. now apply IH.
Qed.

(** X13.  [POST /checkout] on a body that parses with truthy [name],
    [phone], [address] and a non-empty [items] array whose items each have
    a truthy [id] and a [quantity] that is a number at least 1, with the
    store bound, the insert raising nothing as it is bound and as it is run,
    and the clock showing a time value: the response is 201 with the new
    [orderId], [timestamp] the clock in seconds, [created_at] its ISO
    string, [customer] the name as it was sent and [itemCount] the number of
    items, and the table gains the row of the order: the new id, what the
    columns keep of the name, the phone and the address (a string as it is),
    the JSON text of the array, and the clock in seconds. *)
Theorem checkout_accepted rt env db req t b its :
  method req = "POST" -> pathname req = "/checkout" ->
  JSON_parse (text req) = Ok b -> checkout_body b its -> its <> [] ->
  existsb C2_invalid its = false ->
  DB env = Some db ->
  checkout_insert_raises rt db t b = None ->
  time_value (Date_now rt 1) ->
  exists totalItems r,
    reduce_quantities (VNum (Finite false 0 0)) its = Ok totalItems
    /\ order_row rt b = Some r
    /\ fetch rt env req t
       = (order_placed (new_orderId rt) (Date_now rt 1 / 1000)
            (Date_toISOString (Date_now rt 1 / 1000 * 1000))
            (bound (field "name" b)) (length its) totalItems,
          (t ++ [r])%list)
    /\ id r = new_orderId rt
    /\ kept (field "name" b) = Some (name r)
    /\ kept (field "phone" b) = Some (phone r)
    /\ kept (field "address" b) = Some (address r)
    /\ items r = JSON_stringify (VArr its)
    /\ created_at r = Date_now rt 1 / 1000.
Proof.
  intros Hm Hp Hparse Hbody Hne Hvalid Hdb Hraises Hclock.
  unfold checkout_insert_raises in Hraises.
  destruct (order_values rt b) as [v|] eqn:Hvalues; [|discriminate].
  pose proof (for_item_of_all_valid _ Hvalid) as Hval.
  destruct (reduce_after_validation _ Hval (VNum (Finite false 0 0)))
    as [total Htotal].
  destruct (d1_run_ok _ _ _ Hraises) as (r & Hkept & Hrun).
  assert (Hrow : order_row rt b = Some r)
    by (unfold order_row; now rewrite Hvalues, Hkept).
  destruct (order_row_Some _ _ _ Hrow) as (Hid & Hitems & Hcreated & Hn & Hph & Ha).
  exists total, r.
  split; [exact Htotal|]. split; [exact Hrow|]. split.
  - rewrite (fetch_checkout _ _ _ _ Hm Hp). unfold post_checkout.
    rewrite (checkout_try_validated _ _ _ _ _ _ _ Hparse Hbody Hne Hval Hdb).
    unfold mbind, lift, mret.
    now rewrite Hvalues, Hrun, (toISOString_time_value _ Hclock), Htotal.
  - destruct Hbody as (_ & _ & _ & Hi). rewrite Hi in Hitems. auto 7.
Qed.

(** ** What the table keeps *)

Lemma NoDup_snoc {A : Type} (l : list A) (x : A) :
  NoDup l -> ~ In x l -> NoDup (l ++ [x]).
Proof.
  induction l as [|y l IH]; simpl; intros Hl Hx.
  - constructor; [tauto|constructor].
  - inversion Hl as [|? ? Hy Hl']; subst.
    constructor; [|apply IH; tauto].
    intros H. apply in_app_or in H as [H|[H|[]]]; [contradiction|].
    apply Hx. now left.
Qed.

Lemma time_value_seconds (ms : Z) :
  time_value ms -> time_value (ms / 1000 * 1000).
Proof.
  unfold time_value. intros H.
  pose proof (Z.div_mod ms 1000 ltac:(lia)) as E.
  pose proof (Z.mod_pos_bound ms 1000 ltac:(lia)) as B.
  lia.
Qed.

(** The row [POST /checkout] appends, when it appends one. *)
Lemma post_checkout_row rt env req t :
  snd (post_checkout rt env req t) = t
  \/ exists r, snd (post_checkout rt env req t) = (t ++ [r])%list
               /\ ~ In (id r) (map id t)
               /\ created_at r = Date_now rt 1 / 1000.
Proof.
  unfold_checkout.
  cases; auto; run_inv; auto; right; exists r;
    destruct (kept_row_inr _ _ Hkept) as (_ & _ & Hcreated & _); auto.
Qed.

Lemma fetch_row rt env req t :
  snd (fetch rt env req t) = t
  \/ exists r, snd (fetch rt env req t) = (t ++ [r])%list
               /\ ~ In (id r) (map id t)
               /\ created_at r = Date_now rt 1 / 1000.
Proof.
  unfold fetch.
  destruct (method req =? "OPTIONS")%string; [auto|].
  destruct ((method req =? "GET")%string && (pathname req =? "/products")%string);
    [auto|].
  destruct ((method req =? "GET")%string && startsWith "/product/" (pathname req));
    [auto|].
  destruct ((method req =? "POST")%string && (pathname req =? "/checkout")%string);
    [apply post_checkout_row|].
  repeat destruct_match; auto.
Qed.

Lemma fetch_well_formed rt env req t :
  time_value (Date_now rt 1) -> primary_key t -> dates_in_range t ->
  primary_key (snd (fetch rt env req t))
  /\ dates_in_range (snd (fetch rt env req t)).
Proof.
  intros Hclock Hkey Hdates.
  destruct (fetch_row rt env req t) as [->|(r & -> & Hfresh & Hcreated)]; [auto|].
  unfold primary_key, dates_in_range in *. split.
  - rewrite map_app. now apply NoDup_snoc.
  - apply Forall_app. split; [assumption|].
    constructor; [|constructor]. rewrite Hcreated. now apply time_value_seconds.
Qed.

Lemma serve_well_formed (reqs : list (Runtime * Env * Request)) (t : table) :
  clocks_valid reqs -> primary_key t -> dates_in_range t ->
  primary_key (serve reqs t) /\ dates_in_range (serve reqs t).
Proof.
  unfold clocks_valid.
  revert t; induction reqs as [|[[rt env] req] reqs IH]; intros t Hclocks Hkey Hdates;
    simpl; [auto|].
  inversion Hclocks as [|? ? Hclock Hclocks']; subst. simpl in Hclock.
  destruct (fetch_well_formed rt env req t Hclock Hkey Hdates) as [Hkey' Hdates'].
  now apply IH.
Qed.

(** X14.  A table that keeps the primary key (no two rows with one [id])
    and whose [created_at] are all in the range of dates stays so through
    every request whose clock shows a time value, and so through every
    sequence of such requests; on such a table [GET /orders], the select of
    all orders raising nothing, responds 200. *)
Theorem table_stays_well_formed reqs t rt env db req :
  clocks_valid reqs -> primary_key t -> dates_in_range t ->
  method req = "GET" -> pathname req = "/orders" ->
  DB env = Some db ->
  fails db SELECT_FROM_orders_ORDER_BY_created_at_DESC = None ->
  primary_key (serve reqs t) /\ dates_in_range (serve reqs t)
  /\ status (fst (fetch rt env req (serve reqs t))) = 200.
Proof.
  intros Hclocks Hkey Hdates Hm Hp Hdb Hfails.
  destruct (serve_well_formed reqs t Hclocks Hkey Hdates) as [Hkey' Hdates'].
  split; [exact Hkey'|]. split; [exact Hdates'|].
  rewrite (fetch_orders _ _ _ _ Hm Hp). cbn [fst].
  now rewrite (get_orders_listed rt env db _ Hdb Hfails Hkey' Hdates').
Qed.

(** ** An order, once placed *)

Lemma toISOString_Ok (ms : Z) (iso : string) :
  toISOString ms = Ok iso -> time_value ms /\ iso = Date_toISOString ms.
Proof.
  unfold toISOString, time_value.
  destruct (Z.abs ms <=? 8640000000000000) eqn:E; [|discriminate].
  intros [= <-]. split; [now apply Z.leb_le|reflexivity].
Qed.

Lemma listed_id db (r : row) : field "id" (listed db r) = Some (VStr (id r)).
Proof.
  unfold listed.
  destruct (fails db _); [reflexivity|].
  destruct (items r =? "")%string; [reflexivity|].
  destruct (JSON_parse (items r)); reflexivity.
Qed.

(** X15.  When a checkout responds 201 on a table that keeps its primary
    key and whose dates are in range, then, after any further requests
    whose clocks show time values, [GET /orders] (the select of all orders
    raising nothing) responds 200 with an array that has the element of the
    row of the new order in it, under the [orderId] of the 201; the row
    holds what the columns kept of the name, the phone and the address. *)
Theorem new_order_is_listed rt env req t b reqs rt' env' db' req' :
  JSON_parse (text req) = Ok b ->
  status (fst (fetch rt env req t)) = 201 ->
  primary_key t -> dates_in_range t -> clocks_valid reqs ->
  method req' = "GET" -> pathname req' = "/orders" ->
  DB env' = Some db' ->
  fails db' SELECT_FROM_orders_ORDER_BY_created_at_DESC = None ->
  exists els el r,
    fetch rt' env' req' (serve reqs (snd (fetch rt env req t)))
    = (json_response (VArr els) 200, serve reqs (snd (fetch rt env req t)))
    /\ In el els
    /\ order_row rt b = Some r
    /\ el = listed db' r
    /\ Some (VStr (new_orderId rt)) = orderId_of (fst (fetch rt env req t))
    /\ field "id" el = Some (VStr (new_orderId rt))
    /\ kept (field "name" b) = Some (name r)
    /\ kept (field "phone" b) = Some (phone r)
    /\ kept (field "address" b) = Some (address r).
Proof.
  intros Hparse H201 Hkey Hdates Hclocks Hm Hp Hdb Hfails.
  pose proof (fetch_201_checkout _ _ _ _ H201) as E. rewrite E in *.
  destruct (post_checkout_201 _ _ _ _ H201)
    as (b0 & r & iso & total & Hparse0 & _ & _ & Hrow & Htable & Hfresh & Hiso
        & Hresponse).
  assert (b0 = b) as -> by congruence.
  destruct (order_row_Some _ _ _ Hrow) as (Hid & _ & Hcreated & Hn & Hph & Ha).
  rewrite Htable, Hresponse, orderId_of_order_placed.
  assert (Hkey1 : primary_key (t ++ [r])%list).
  { unfold primary_key. rewrite map_app. apply NoDup_snoc; [assumption|].
    now rewrite Hid. }
  assert (Hdates1 : dates_in_range (t ++ [r])%list).
  { apply Forall_app. split; [assumption|].
    constructor; [|constructor]. rewrite Hcreated.
    exact (proj1 (toISOString_Ok _ _ Hiso)). }
  destruct (serve_well_formed reqs _ Hclocks Hkey1 Hdates1) as [Hkey2 Hdates2].
  exists (map (listed db') (order_by_created_at_desc (serve reqs (t ++ [r])%list))),
    (listed db' r), r.
  split.
  - rewrite (fetch_orders _ _ _ _ Hm Hp).
    now rewrite (get_orders_listed rt' env' db' _ Hdb Hfails Hkey2 Hdates2).
  - split.
    + apply in_map. apply In_order_by_created_at_desc.
      destruct (serve_appends reqs (t ++ [r])%list) as [added ->].
      apply in_or_app. left. apply in_or_app. right. now left.
    + rewrite listed_id, Hid. repeat split; assumption.
Qed.

(** X16.  When a checkout responds 201, [GET /order/:id] for its
    [orderId], at once or after any further requests, with the store bound
    and its look-up raising nothing, finds the row of the order: if the
    stored text of the items parses to [v] the response is 200 with the
    [id] of the checkout, for [name], [phone] and [address] what the columns
    kept of those of the checkout (a string as it was sent), [items] [v],
    and for [created_at] the very ISO string the 201 carried. *)
Theorem order_read_back rt env req t b v reqs rt' env' db' :
  JSON_parse (text req) = Ok b ->
  status (fst (fetch rt env req t)) = 201 ->
  radix36_fraction (Math_random_toString_36 rt) = true ->
  JSON_parse (JSON_stringify (bound (field "items" b))) = Ok v ->
  DB env' = Some db' ->
  fails db' (SELECT_FROM_orders_WHERE_id (new_orderId rt)) = None ->
  exists name_kept phone_kept address_kept,
    kept (field "name" b) = Some name_kept
    /\ kept (field "phone" b) = Some phone_kept
    /\ kept (field "address" b) = Some address_kept
    /\ fst (fetch rt' env' (GET ("/order/" ++ new_orderId rt))
              (serve reqs (snd (fetch rt env req t))))
       = json_response
           (VObj [("id", VStr (new_orderId rt));
                  ("name", name_kept);
                  ("phone", phone_kept);
                  ("address", address_kept);
                  ("items", v);
                  ("created_at",
                   VStr (Date_toISOString (Date_now rt 1 / 1000 * 1000)))]) 200
    /\ match body (fst (fetch rt env req t)) with
       | Some o =>
           field "created_at" o
           = Some (VStr (Date_toISOString (Date_now rt 1 / 1000 * 1000)))
       | None => False
       end.
Proof.
  intros Hparse H201 Hrandom Hround Hdb Hfails.
  pose proof (fetch_201_checkout _ _ _ _ H201) as E. rewrite E in *.
  destruct (post_checkout_201 _ _ _ _ H201)
    as (b0 & r & iso & total & Hparse0 & _ & _ & Hrow & Htable & Hfresh & Hiso
        & Hresponse).
  assert (b0 = b) as -> by congruence.
  destruct (order_row_Some _ _ _ Hrow) as (Hid & Hitems & Hcreated & Hn & Hph & Ha).
  destruct (toISOString_Ok _ _ Hiso) as [_ ->].
  exists (name r), (phone r), (address r).
  split; [exact Hn|]. split; [exact Hph|]. split; [exact Ha|].
  rewrite Htable, Hresponse. split; [|reflexivity].
  destruct (serve_appends reqs (t ++ [r])%list) as [added ->].
  rewrite (fetch_order rt' env' (GET ("/order/" ++ new_orderId rt)) _
             (new_orderId rt) eq_refl eq_refl).
  unfold get_order, d1_first, bind. cbn [pathname GET fst].
  rewrite (pop_order_path _ (no_slash_new_orderId _ Hrandom)), Hdb, Hfails.
  rewrite <- Hid in Hfresh |- *.
  rewrite (find_appended r t added Hfresh).
  rewrite Hitems, Hcreated, Hround, Hiso. unfold full_row. simpl.
  now rewrite Hid.
Qed.

(** ** The product store, unbound *)

(** X17.  With no product store bound, [GET /products] and
    [GET /product/:id] respond 500 with
    [{error: "Products KV binding not configured"}], whatever the path asks
    for. *)
Theorem product_store_unbound rt env req t :
  PRODUCTS_KV env = None ->
  (method req = "GET" /\ pathname req = "/products")
  \/ (method req = "GET" /\ exists rest, pathname req = "/product/" ++ rest) ->
  fetch rt env req t
  = (json_response (VObj [("error", VStr "Products KV binding not configured")]) 500,
     t).
Proof.
  intros Hkv [(Hm & Hp)|(Hm & rest & Hp)].
  - rewrite (fetch_products _ _ _ _ Hm Hp).
    unfold get_products. now rewrite Hkv.
  - rewrite (fetch_product _ _ _ _ _ Hm Hp).
    unfold get_product. now rewrite Hkv.
Qed.

End Properties.

(** * Closed examples

    The theorems at sample requests, and the inputs at which the claims of
    the specification that had to be amended fail as they are worded.  All
    run on the reference platform. *)

Import Sample.

(** ** C1 *)

(** A body that is not JSON gets 500, not the 400 of the missing fields; a
    body whose [name] is the number 5 and not a string does not get that 400
    either: the order is placed. *)
Lemma C1_counterexample :
  ~ C1_as_stated (P := Reference.platform) rt env (POST "/checkout" "{") []
  /\ ~ C1_as_stated (P := Reference.platform) rt env (POST "/checkout" from_5) [].
Proof.
  split; intros H; destruct (H eq_refl eq_refl) as [_ H'];
    specialize (H' eq_refl); vm_compute in H'; discriminate H'.
Qed.

Lemma checkout_missing_fields_witness :
  method (POST "/checkout" "{}") = "POST"
  /\ pathname (POST "/checkout" "{}") = "/checkout"
  /\ fst (fetch (P := Reference.platform) rt env (POST "/checkout" "{}") []) = missing_fields.
Proof.
  split; [reflexivity|]. split; [reflexivity|].
  apply (proj1 (@checkout_missing_fields Reference.platform rt env (POST "/checkout" "{}") []
                  eq_refl eq_refl)).
  reflexivity.
Defined.

(** ** C2 *)

(** An item whose [quantity] is [true], or the string ["2"], neither of them
    a number, is not rejected: the order is placed. *)
Lemma C2_counterexample :
  ~ C2_as_stated (P := Reference.platform) rt env (POST "/checkout" true_of_p1) []
  /\ ~ C2_as_stated (P := Reference.platform) rt env (POST "/checkout" text_2_of_p1) [].
Proof.
  split; intros H.
  - assert (Hparse : JSON_parse (Platform := Reference.platform)
                       (text (POST "/checkout" true_of_p1))
                     = Ok (order_of (VStr "Ann") (VArr [item (VBool true)])))
      by (vm_compute; reflexivity).
    destruct (H eq_refl eq_refl _ [item (VBool true)] (item (VBool true)) Hparse)
      as [message E].
    + repeat split; reflexivity.
    + discriminate.
    + reflexivity.
    + vm_compute in E. discriminate E.
  - assert (Hparse : JSON_parse (Platform := Reference.platform)
                       (text (POST "/checkout" text_2_of_p1))
                     = Ok (order_of (VStr "Ann") (VArr [item (VStr "2")])))
      by (vm_compute; reflexivity).
    destruct (H eq_refl eq_refl _ [item (VStr "2")] (item (VStr "2")) Hparse)
      as [message E].
    + repeat split; reflexivity.
    + discriminate.
    + reflexivity.
    + vm_compute in E. discriminate E.
Qed.

Lemma checkout_first_invalid_item_witness :
  method (POST "/checkout" text_2_of_none) = "POST"
  /\ pathname (POST "/checkout" text_2_of_none) = "/checkout"
  /\ fetch (P := Reference.platform) rt env (POST "/checkout" text_2_of_none) []
     = (json_response
          (VObj [("error", VStr invalid_item_message);
                 ("invalidItem", VObj [("quantity", VStr "2")])]) 400,
        []).
Proof.
  split; [reflexivity|]. split; [reflexivity|].
  apply (@checkout_first_invalid_item Reference.platform rt env
           (POST "/checkout" text_2_of_none) []
           (order_of (VStr "Ann") (VArr [VObj [("quantity", VStr "2")]]))
           [] (VObj [("quantity", VStr "2")]) []);
    first [reflexivity | vm_compute; reflexivity | repeat split; reflexivity].
Defined.

(** ** C3 *)

(** A quantity written [1e999] is the number [Infinity]; the order is
    placed, the column holds [null] in its place, and that is what
    [GET /order/:id] returns. *)
Lemma C3_counterexample :
  ~ C3_as_stated (P := Reference.platform) rt env (POST "/checkout" many_of_p1) [].
Proof.
  intros H.
  assert (Hparse : JSON_parse (Platform := Reference.platform) (text (POST "/checkout" many_of_p1))
                   = Ok (order_of (VStr "Ann") (VArr [item (VNum (Infinity false))])))
    by (vm_compute; reflexivity).
  destruct (H eq_refl eq_refl _ [item (VNum (Infinity false))]
              (fst (fetch (P := Reference.platform) rt env (POST "/checkout" many_of_p1) []))
              (snd (fetch (P := Reference.platform) rt env (POST "/checkout" many_of_p1) []))
              Hparse eq_refl)
    as (returned & E1 & E2).
  - apply surjective_pairing.
  - vm_compute. reflexivity.
  - vm_compute in E1. injection E1 as <-. vm_compute in E2. discriminate E2.
Qed.

Lemma order_items_round_trip_witness :
  status (fst (fetch (P := Reference.platform) rt env (POST "/checkout" two_of_p1) [])) = 201
  /\ items_of
       (fst (fetch (P := Reference.platform) rt_half env (GET ("/order/" ++ new_orderId rt))
               (serve (P := Reference.platform) [(rt, env, GET "/orders")]
                  (snd (fetch (P := Reference.platform) rt env (POST "/checkout" two_of_p1) [])))))
     = Some (VArr [item (VNum (Finite false 2 0))]).
Proof.
  split; [vm_compute; reflexivity|].
  apply (@order_items_round_trip Reference.platform rt env (POST "/checkout" two_of_p1) []
           (order_of (VStr "Ann") (VArr [item (VNum (Finite false 2 0))]))
           [item (VNum (Finite false 2 0))]
           [(rt, env, GET "/orders")] rt_half env db);
    vm_compute; reflexivity.
Defined.

(** ** C4 *)


(** ** C5 *)



(** ** C6 *)



(** ** C7 *)

(** The connection is lost on the look-up of one order: [GET /orders]
    responds 200 with the message in the [parseError] of that order, not
    500. *)
Lemma C7_counterexample : ~ C7_as_stated (P := Reference.platform) rt db_lost [o1 "[]"].
Proof.
  intros H.
  specialize (H (SELECT_FROM_orders_WHERE_id "o1")
                "D1_ERROR: Network connection lost.").
  assert (E : fst (fetch (P := Reference.platform) rt {| PRODUCTS_KV := None; DB := Some db_lost |}
                     (GET "/orders") [o1 "[]"])
              = orders_catch "D1_ERROR: Network connection lost.").
  { apply H.
    - right. exists (o1 "[]"). split; [now left|reflexivity].
    - reflexivity.
    - intros q' Hq'. destruct q' as [r| |i]; try reflexivity.
      simpl. destruct (i =? "o1")%string eqn:Ei; [|reflexivity].
      apply String.eqb_eq in Ei. congruence. }
  vm_compute in E. discriminate E.
Qed.

Lemma store_errors_witness :
  DB env_no_table = Some db_no_table
  /\ status (fst (fetch (P := Reference.platform) rt env_no_table (POST "/checkout" two_of_p1) [])) = 500
  /\ status (fst (fetch (P := Reference.platform) rt env_no_table (GET "/orders") [])) = 404
  /\ DB env_lost = Some db_lost
  /\ exists els,
       fetch (P := Reference.platform) rt env_lost (GET "/orders") [o1 "[]"]
       = (json_response (VArr els) 200, [o1 "[]"])
       /\ In (failed_element (P := Reference.platform) (o1 "[]")
                "D1_ERROR: Network connection lost.") els.
Proof.
  split; [reflexivity|].
  destruct (@store_errors Reference.platform rt env_no_table db_no_table []
              "D1_ERROR: no such table: orders: SQLITE_ERROR" eq_refl)
    as (Hcheckout & Horders & _).
  destruct (@store_errors Reference.platform rt env_lost db_lost [o1 "[]"]
              "D1_ERROR: Network connection lost." eq_refl)
    as (_ & _ & Hlookup).
  split; [|split; [|split; [reflexivity|]]].
  - rewrite (Hcheckout (POST "/checkout" two_of_p1)
               (order_of (VStr "Ann") (VArr [item (VNum (Finite false 2 0))]))
               [item (VNum (Finite false 2 0))] eq_refl eq_refl).
    + reflexivity.
    + vm_compute. reflexivity.
    + repeat split; reflexivity.
    + discriminate.
    + reflexivity.
    + vm_compute. reflexivity.
  - rewrite (Horders (GET "/orders") eq_refl eq_refl eq_refl). reflexivity.
  - apply (Hlookup (GET "/orders") (o1 "[]") eq_refl eq_refl eq_refl).
    + repeat constructor. unfold time_value. simpl. lia.
    + now left.
    + reflexivity.
Defined.

(** ** C9 *)

Lemma checkout_atomic_witness :
  time_value (Date_now rt 1)
  /\ (status (fst (fetch (P := Reference.platform) rt env (POST "/checkout" two_of_p1) [])) = 201
      <-> exists r,
            snd (fetch (P := Reference.platform) rt env (POST "/checkout" two_of_p1) []) = [r]).
Proof.
  assert (T : time_value (Date_now rt 1)) by (unfold time_value; simpl; lia).
  split; [exact T|].
  exact (proj2 (@checkout_atomic Reference.platform rt env (POST "/checkout" two_of_p1) []
                  eq_refl eq_refl T)).
Defined.

(** ** C10 *)

Lemma single_order_parse_failure_witness :
  JSON_parse (Platform := Reference.platform) (items (o1 "not json")) = Throw "Unexpected token in JSON"
  /\ fetch (P := Reference.platform) rt env (GET "/order/o1") [o1 "not json"]
     = (json_response (VObj [("error", VStr "Unexpected token in JSON")]) 500,
        [o1 "not json"]).
Proof.
  split; [reflexivity|].
  apply (@single_order_parse_failure Reference.platform rt env db (GET "/order/o1")
           [o1 "not json"] "o1" (o1 "not json") "Unexpected token in JSON");
    reflexivity.
Defined.

(** ** The rest of the router, at sample requests *)

Lemma products_listed_witness :
  kv_list kv = Ok ["p1"; "gone"; "p2"]
  /\ fetch (P := Reference.platform) rt env_kv (GET "/products") []
     = (json_response (VArr [widget; gadget]) 200, []).
Proof.
  split; [reflexivity|].
  exact (proj1 (@products_listed Reference.platform rt env_kv kv (GET "/products")
                  [] ["p1"; "gone"; "p2"] doc eq_refl eq_refl eq_refl eq_refl
                  (fun _ _ => eq_refl))).
Defined.

Lemma products_unavailable_witness :
  kv_list kv_down = Throw "KV LIST failed: 503"
  /\ fetch (P := Reference.platform) rt env_kv_down (GET "/products") []
     = (json_response (VObj [("error", VStr "KV LIST failed: 503")]) 500, []).
Proof.
  split; [reflexivity|].
  apply (@products_unavailable Reference.platform rt env_kv_down kv_down
           (GET "/products") [] "KV LIST failed: 503" eq_refl eq_refl eq_refl).
  left. reflexivity.
Defined.

Lemma product_lookup_witness :
  kv_get kv "zero" = Ok (VNum (Finite false 0 0))
  /\ fetch (P := Reference.platform) rt env_kv (GET "/product/zero") []
     = (json_response (VObj [("error", VStr "Product not found")]) 404, [])
  /\ fetch (P := Reference.platform) rt env_kv (GET "/product/p1") []
     = (json_response widget 200, [])
  /\ fetch (P := Reference.platform) rt env_kv (GET "/product/odd") []
     = (json_response
          (VObj [("error", VStr "Cannot convert object to primitive value")]) 500,
        []).
Proof.
  split; [reflexivity|]. split; [|split].
  - exact (proj1 (@product_lookup Reference.platform rt env_kv kv
                    (GET "/product/zero") [] "zero" eq_refl eq_refl eq_refl)
             (VNum (Finite false 0 0)) eq_refl).
  - exact (proj1 (@product_lookup Reference.platform rt env_kv kv
                    (GET "/product/p1") [] "p1" eq_refl eq_refl eq_refl)
             widget eq_refl).
  - exact (proj1 (@product_lookup Reference.platform rt env_kv kv
                    (GET "/product/odd") [] "odd" eq_refl eq_refl eq_refl)
             odd eq_refl).
Defined.

Lemma unmatched_request_witness :
  fetch (P := Reference.platform) rt env
    {| method := "DELETE"; pathname := "/products"; text := "" |} [o2]
  = (default_response, [o2]).
Proof.
  apply (@unmatched_request Reference.platform).
  left. repeat split; discriminate.
Defined.

Lemma checkout_cart_empty_witness :
  JSON_parse (Platform := Reference.platform) nothing
  = Ok (order_of (VStr "Ann") (VArr []))
  /\ fetch (P := Reference.platform) rt env_unbound (POST "/checkout" nothing) []
     = (json_response (VObj [("error", VStr "Cart is empty")]) 400, []).
Proof.
  assert (Hparse : JSON_parse (Platform := Reference.platform) nothing
                   = Ok (order_of (VStr "Ann") (VArr [])))
    by (vm_compute; reflexivity).
  split; [exact Hparse|].
  apply (@checkout_cart_empty Reference.platform rt env_unbound
           (POST "/checkout" nothing) [] _ eq_refl eq_refl Hparse).
  repeat split; reflexivity.
Defined.

Lemma database_unbound_witness :
  DB env_kv = None
  /\ fetch (P := Reference.platform) rt env_kv (GET "/order/o1") [o1 "[]"]
     = (json_response (VObj [("error", VStr "Database binding not configured")]) 500,
        [o1 "[]"]).
Proof.
  split; [reflexivity|].
  apply (@database_unbound Reference.platform rt env_kv (GET "/order/o1")
           [o1 "[]"] eq_refl).
  right. left. split; [reflexivity|]. exists "o1". reflexivity.
Defined.

Lemma order_not_found_witness :
  ~ In "o9" (map id [o1 "[]"])
  /\ fetch (P := Reference.platform) rt env (GET "/order/o9") [o1 "[]"]
     = (json_response (VObj [("error", VStr "Order not found")]) 404, [o1 "[]"]).
Proof.
  assert (H : ~ In "o9" (map id [o1 "[]"]))
    by (simpl; intros [H|[]]; discriminate H).
  split; [exact H|].
  exact (@order_not_found Reference.platform rt env db (GET "/order/o9")
           [o1 "[]"] "o9" eq_refl eq_refl eq_refl eq_refl H).
Defined.

Lemma order_found_witness :
  fetch (P := Reference.platform) rt env (GET "/order/o1") [o2; o1 "[]"]
  = (json_response (found_order (P := Reference.platform) (o1 "[]") (VArr [])) 200,
     [o2; o1 "[]"]).
Proof.
  exact (@order_found Reference.platform rt env db (GET "/order/o1")
           [o2; o1 "[]"] "o1" (o1 "[]") (VArr [])
           eq_refl eq_refl eq_refl eq_refl eq_refl eq_refl).
Defined.

Lemma sample_table_well_formed :
  primary_key [o1 "[]"; o2] /\ dates_in_range [o1 "[]"; o2].
Proof.
  split.
  - repeat constructor; simpl; intuition discriminate.
  - repeat constructor; unfold time_value; simpl; lia.
Defined.

Lemma orders_most_recent_first_witness :
  exists rows,
    Permutation rows [o1 "[]"; o2] /\ descending rows
    /\ fetch (P := Reference.platform) rt env (GET "/orders") [o1 "[]"; o2]
       = (json_response (VArr (map (listed (P := Reference.platform) db) rows)) 200,
          [o1 "[]"; o2]).
Proof.
  exact (@orders_most_recent_first Reference.platform rt env db (GET "/orders")
           [o1 "[]"; o2] eq_refl eq_refl eq_refl eq_refl
           (proj1 sample_table_well_formed) (proj2 sample_table_well_formed)).
Defined.

Lemma orders_in_insertion_order_witness :
  descending [o1 "[]"; o4]
  /\ fetch (P := Reference.platform) rt env (GET "/orders") [o1 "[]"; o4]
     = (json_response
          (VArr [listed (P := Reference.platform) db (o1 "[]");
                 listed (P := Reference.platform) db o4]) 200,
        [o1 "[]"; o4]).
Proof.
  assert (D : descending [o1 "[]"; o4]).
  { unfold descending. repeat constructor. simpl. lia. }
  split; [exact D|].
  apply (@orders_in_insertion_order Reference.platform rt env db (GET "/orders")
           [o1 "[]"; o4] eq_refl eq_refl eq_refl eq_refl).
  - repeat constructor; simpl; intuition discriminate.
  - repeat constructor; unfold time_value; simpl; lia.
  - exact D.
Defined.

Lemma orders_invalid_date_witness :
  ~ time_value (created_at o3 * 1000)
  /\ status (fst (fetch (P := Reference.platform) rt env (GET "/orders")
                     [o1 "[]"; o3])) = 500.
Proof.
  assert (D : ~ time_value (created_at o3 * 1000))
    by (unfold time_value; simpl; lia).
  split; [exact D|].
  rewrite (@orders_invalid_date Reference.platform rt env db (GET "/orders")
             [o1 "[]"; o3] o3 eq_refl eq_refl eq_refl eq_refl).
  - reflexivity.
  - right. now left.
  - exact D.
  - right. split; [|discriminate].
    repeat constructor; simpl; intuition discriminate.
Defined.

Lemma checkout_accepted_witness :
  time_value (Date_now rt 1)
  /\ snd (fetch (P := Reference.platform) rt env (POST "/checkout" from_5) [o2])
     = [o2; five_row].
Proof.
  assert (T : time_value (Date_now rt 1)) by (unfold time_value; simpl; lia).
  split; [exact T|].
  assert (Hparse : JSON_parse (Platform := Reference.platform)
                     (text (POST "/checkout" from_5))
                   = Ok (order_of (VNum (Finite false 5 0))
                           (VArr [item (VNum (Finite false 2 0))])))
    by (vm_compute; reflexivity).
  destruct (@checkout_accepted Reference.platform rt env db
              (POST "/checkout" from_5) [o2] _
              [item (VNum (Finite false 2 0))]
              eq_refl eq_refl Hparse)
    as (total & r & _ & Hrow & E & _);
    [repeat split; reflexivity
    |discriminate
    |reflexivity
    |reflexivity
    |vm_compute; reflexivity
    |exact T
    |].
  rewrite E. cbn [snd].
  assert (Hfive : order_row (P := Reference.platform) rt
                    (order_of (VNum (Finite false 5 0))
                       (VArr [item (VNum (Finite false 2 0))]))
                  = Some five_row)
    by (vm_compute; reflexivity).
  rewrite Hfive in Hrow. injection Hrow as <-. reflexivity.
Defined.

Lemma table_stays_well_formed_witness :
  clocks_valid [(rt, env, POST "/checkout" two_of_p1)]
  /\ primary_key
       (serve (P := Reference.platform) [(rt, env, POST "/checkout" two_of_p1)]
          [o1 "[]"; o2]).
Proof.
  assert (C : clocks_valid [(rt, env, POST "/checkout" two_of_p1)])
    by (repeat constructor; unfold time_value; simpl; lia).
  split; [exact C|].
  exact (proj1 (@table_stays_well_formed Reference.platform
                  [(rt, env, POST "/checkout" two_of_p1)] [o1 "[]"; o2]
                  rt env db (GET "/orders") C
                  (proj1 sample_table_well_formed) (proj2 sample_table_well_formed)
                  eq_refl eq_refl eq_refl eq_refl)).
Defined.

Lemma new_order_is_listed_witness :
  status (fst (fetch (P := Reference.platform) rt env (POST "/checkout" two_of_p1)
                 [o1 "[]"; o2])) = 201
  /\ exists els el,
       fst (fetch (P := Reference.platform) rt env (GET "/orders")
              (snd (fetch (P := Reference.platform) rt env
                      (POST "/checkout" two_of_p1) [o1 "[]"; o2])))
       = json_response (VArr els) 200
       /\ In el els
       /\ field "id" el = Some (VStr (new_orderId rt)).
Proof.
  assert (S : status (fst (fetch (P := Reference.platform) rt env
                             (POST "/checkout" two_of_p1) [o1 "[]"; o2])) = 201)
    by (vm_compute; reflexivity).
  split; [exact S|].
  assert (Hparse : JSON_parse (Platform := Reference.platform)
                     (text (POST "/checkout" two_of_p1))
                   = Ok (order_of (VStr "Ann") (VArr [item (VNum (Finite false 2 0))])))
    by (vm_compute; reflexivity).
  destruct (@new_order_is_listed Reference.platform rt env
              (POST "/checkout" two_of_p1) [o1 "[]"; o2] _ [] rt env db
              (GET "/orders") Hparse S
              (proj1 sample_table_well_formed) (proj2 sample_table_well_formed)
              (Forall_nil _) eq_refl eq_refl eq_refl eq_refl)
    as (els & el & r & E & Hin & _ & _ & _ & Hid & _).
  exists els, el. split; [|split; assumption].
  cbn [serve] in E. now rewrite E.
Defined.

Lemma order_read_back_witness :
  status (fst (fetch (P := Reference.platform) rt env (POST "/checkout" from_5) []))
  = 201
  /\ match
       body (fst (fetch (P := Reference.platform) rt env
                    (GET ("/order/" ++ new_orderId rt))
                    (snd (fetch (P := Reference.platform) rt env
                            (POST "/checkout" from_5) []))))
     with
     | Some o =>
         field "name" o = Some (VStr "5.0") /\ field "phone" o = Some (VStr "555")
     | None => False
     end.
Proof.
  assert (S : status (fst (fetch (P := Reference.platform) rt env
                             (POST "/checkout" from_5) [])) = 201)
    by (vm_compute; reflexivity).
  split; [exact S|].
  assert (Hparse : JSON_parse (Platform := Reference.platform)
                     (text (POST "/checkout" from_5))
                   = Ok (order_of (VNum (Finite false 5 0))
                           (VArr [item (VNum (Finite false 2 0))])))
    by (vm_compute; reflexivity).
  assert (Hround : JSON_parse (Platform := Reference.platform)
                     (JSON_stringify (Platform := Reference.platform)
                        (bound (field "items"
                                  (order_of (VNum (Finite false 5 0))
                                     (VArr [item (VNum (Finite false 2 0))])))))
                   = Ok (VArr [item (VNum (Finite false 2 0))]))
    by (vm_compute; reflexivity).
  destruct (@order_read_back Reference.platform rt env
              (POST "/checkout" from_5) [] _ _ [] rt env db
              Hparse S eq_refl Hround eq_refl eq_refl)
    as (n & p & a & Hn & Hp & _ & E & _).
  cbn [serve] in E. rewrite E. cbn [body json_response].
  assert (Hfive : kept (P := Reference.platform)
                    (field "name" (order_of (VNum (Finite false 5 0))
                                     (VArr [item (VNum (Finite false 2 0))])))
                  = Some (VStr "5.0"))
    by (vm_compute; reflexivity).
  rewrite Hfive in Hn. injection Hn as <-.
  assert (Hphone : kept (P := Reference.platform)
                     (field "phone" (order_of (VNum (Finite false 5 0))
                                       (VArr [item (VNum (Finite false 2 0))])))
                   = Some (VStr "555"))
    by (vm_compute; reflexivity).
  rewrite Hphone in Hp. injection Hp as <-.
  split; reflexivity.
Defined.

Lemma product_store_unbound_witness :
  PRODUCTS_KV env_unbound = None
  /\ fetch (P := Reference.platform) rt env_unbound (GET "/product/p1") []
     = (json_response (VObj [("error", VStr "Products KV binding not configured")]) 500,
        []).
Proof.
  split; [reflexivity|].
  apply (@product_store_unbound Reference.platform rt env_unbound
           (GET "/product/p1") [] eq_refl).
  right. split; [reflexivity|]. exists "p1". reflexivity.
Defined.
